(** * stock-analysis-agent: the indicator arithmetic and the prompt pipeline

    A shallow embedding of [src/main.py] and [src/app.py].

    Numbers.  A pandas / Python [float] is modelled by [float64]: an exact
    rational, one of the two infinities, or NaN, with the IEEE rules for
    the special values (NaN is absorbing, [x / 0] is an infinity or NaN,
    [inf - inf] is NaN).  Rounding, the sign of zero and the range of the
    exponent are abstracted in the arithmetic of the series: a finite
    result is exact and does not overflow to an infinity.  The range is
    modelled where Python raises on it ([fits_float]: the true division
    and the formatting of an [int]); a theorem on sums of the series that
    needs them to stay in range says so.

    Text.  The methods of [str] that depend on the Unicode tables
    ([strip], [upper], [lower]) are parameters of the model, as is the
    text of a float.

    Effects.  Printing, [input()], the market-data provider and the LLM
    endpoint are events of a trace threaded through a state-and-error
    monad; the provider and the endpoint are oracles of a [World]. *)

From Stdlib Require Import QArith Qcanon ZArith String Ascii List Lia.
From stdpp Require Import base numbers list strings pretty gmap.

(** ** Floating-point values *)

Inductive float64 : Type :=
| Fin (q : Qc)
| PInf
| NInf
| NaN.

Definition Qc_of_Z (z : Z) : Qc := Q2Qc (inject_Z z).
Definition Qc_of_nat (n : nat) : Qc := Qc_of_Z (Z.of_nat n).
Definition f_of_Z (z : Z) : float64 := Fin (Qc_of_Z z).
Definition f_of_nat (n : nat) : float64 := Fin (Qc_of_nat n).

Definition fneg (x : float64) : float64 :=
  match x with
  | Fin q => Fin (- q)%Qc
  | PInf => NInf
  | NInf => PInf
  | NaN => NaN
  end.

Definition fadd (x y : float64) : float64 :=
  match x, y with
  | NaN, _ | _, NaN => NaN
  | Fin a, Fin b => Fin (a + b)%Qc
  | PInf, NInf | NInf, PInf => NaN
  | PInf, _ | _, PInf => PInf
  | NInf, _ | _, NInf => NInf
  end.

Definition fsub (x y : float64) : float64 := fadd x (fneg y).

(** The infinity whose sign is that of [c], read as the sign of a finite
    factor: [Gt] positive, [Lt] negative, [Eq] zero (no limit: NaN). *)
Definition inf_of_sign (c : comparison) : float64 :=
  match c with
  | Gt => PInf
  | Lt => NInf
  | Eq => NaN
  end.

Definition sign (q : Qc) : comparison := (q ?= 0)%Qc.

(** The range of a float.  The largest float is [2^1024 - 2^971]; a number
    whose magnitude reaches [2^1024 - 2^970], half a step above it, rounds
    to an infinity. *)
Definition float_overflow : Qc := Qc_of_Z (2 ^ 1024 - 2 ^ 970).

Definition fits_float (q : Qc) : bool :=
  match (- float_overflow ?= q)%Qc, (q ?= float_overflow)%Qc with
  | Lt, Lt => true
  | _, _ => false
  end.

(** A float result brought back into the range: what is too large is an
    infinity. *)
Definition to_range (x : float64) : float64 :=
  match x with
  | Fin q => if fits_float q then x else inf_of_sign (sign q)
  | _ => x
  end.

Definition fmul (x y : float64) : float64 :=
  match x, y with
  | NaN, _ | _, NaN => NaN
  | Fin a, Fin b => Fin (a * b)%Qc
  | Fin a, PInf | PInf, Fin a => inf_of_sign (sign a)
  | Fin a, NInf | NInf, Fin a => inf_of_sign (CompOpp (sign a))
  | PInf, PInf | NInf, NInf => PInf
  | PInf, NInf | NInf, PInf => NInf
  end.

(** numpy division: no exception, [a / 0] is an infinity of the sign of
    [a], and [0 / 0] and [inf / inf] are NaN. *)
Definition fdiv (x y : float64) : float64 :=
  match x, y with
  | NaN, _ | _, NaN => NaN
  | Fin a, Fin b =>
      match sign b with
      | Eq => inf_of_sign (sign a)
      | _ => Fin (a / b)%Qc
      end
  | Fin _, PInf | Fin _, NInf => Fin 0%Qc
  | PInf, Fin b =>
      match sign b with
      | Lt => NInf
      | _ => PInf
      end
  | NInf, Fin b =>
      match sign b with
      | Lt => PInf
      | _ => NInf
      end
  | PInf, PInf | PInf, NInf | NInf, PInf | NInf, NInf => NaN
  end.

(** [x > y] and [x < y]: false as soon as one side is NaN. *)
Definition fcompare (x y : float64) : option comparison :=
  match x, y with
  | NaN, _ | _, NaN => None
  | Fin a, Fin b => Some (a ?= b)%Qc
  | PInf, PInf | NInf, NInf => Some Eq
  | PInf, _ | _, NInf => Some Gt
  | NInf, _ | _, PInf => Some Lt
  end.

Definition fgtb (x y : float64) : bool :=
  match fcompare x y with
  | Some Gt => true
  | _ => false
  end.

Definition fltb (x y : float64) : bool :=
  match fcompare x y with
  | Some Lt => true
  | _ => false
  end.

Definition is_nan (x : float64) : bool :=
  match x with
  | NaN => true
  | _ => false
  end.

Definition fsum (xs : list float64) : float64 := foldl fadd (Fin 0%Qc) xs.

Definition Qc_sum (qs : list Qc) : Qc := foldl Qcplus 0%Qc qs.

(** ** Python exceptions and results of fallible code *)

(** An instance of a subclass of [Exception]: its class and [str(e)]. *)
Record exn : Type := PyExc { exn_class : string; exn_text : string }.

Inductive res (A : Type) : Type :=
| Ok (a : A)
| Raise (e : exn).
Arguments Ok {A} a.
Arguments Raise {A} e.

(** ** pandas Series *)

Module Pandas.

Definition Series : Type := list float64.

(** [s.iloc[-1]] *)
Definition iloc_last (s : Series) : res float64 :=
  match last s with
  | Some x => Ok x
  | None => Raise (PyExc "IndexError" "single positional indexer is out-of-bounds")
  end.

(** The window functions first turn the infinities into NaN
    ([BaseWindow._prep_values]); what is left of a cell is an observation
    or a hole. *)
Definition prep_value (x : float64) : option Qc :=
  match x with
  | Fin q => Some q
  | _ => None
  end.

Definition of_cell (c : option Qc) : float64 :=
  match c with
  | Some q => Fin q
  | None => NaN
  end.

(** The rows [i - w + 1 .. i] of [s] that exist. *)
Definition window_at {A : Type} (w : nat) (s : list A) (i : nat) : list A :=
  drop (S i - w) (take (S i) s).

(** [s.rolling(window=w).agg()]: [min_periods] defaults to the window, so
    a row has a value only when its window holds [w] observations. *)
Definition rolling (w : nat) (agg : list Qc → float64) (s : Series) : Series :=
  map (λ i, let obs := omap prep_value (window_at w s i) in
            if decide (w ≤ length obs) then agg obs else NaN)
      (seq 0 (length s)).

Definition mean_agg (obs : list Qc) : float64 :=
  fdiv (Fin (Qc_sum obs)) (f_of_nat (length obs)).

Definition rolling_mean (w : nat) (s : Series) : Series := rolling w mean_agg s.

(** Sample variance ([ddof = 1]) of the observations of a window. *)
Definition sample_var (obs : list Qc) : Qc :=
  let n := Qc_of_nat (length obs) in
  let m := (Qc_sum obs / n)%Qc in
  (Qc_sum (map (λ x, (x - m) * (x - m)) obs) / (n - 1))%Qc.

Definition std_agg (sqrt : Qc → Qc) (obs : list Qc) : float64 :=
  if decide (length obs ≤ 1) then NaN else Fin (sqrt (sample_var obs)).

Definition rolling_std (sqrt : Qc → Qc) (w : nat) (s : Series) : Series :=
  rolling w (std_agg sqrt) s.

(** [s.diff()] *)
Definition diff (s : Series) : Series :=
  match s with
  | [] => []
  | _ :: t => NaN :: zip_with fsub t s
  end.

(** [s.where(cond, other)] for a scalar [other]: a cell is kept where the
    condition holds and replaced elsewhere (so also where it is NaN). *)
Definition where_ (cond : float64 → bool) (other : float64) (s : Series) : Series :=
  map (λ x, if cond x then x else other) s.

Definition neg (s : Series) : Series := map fneg s.
Definition add (a b : Series) : Series := zip_with fadd a b.
Definition sub (a b : Series) : Series := zip_with fsub a b.
Definition div (a b : Series) : Series := zip_with fdiv a b.
Definition mul_scalar (a : Series) (k : float64) : Series := map (λ x, fmul x k) a.
Definition scalar_add (k : float64) (a : Series) : Series := map (fadd k) a.
Definition scalar_sub (k : float64) (a : Series) : Series := map (fsub k) a.
Definition scalar_div (k : float64) (a : Series) : Series := map (fdiv k) a.

(** [s.mean()]: NaN cells are skipped; no cell left gives NaN. *)
Definition mean (s : Series) : float64 :=
  let obs := filter (λ x, is_nan x = false) s in
  fdiv (fsum obs) (f_of_nat (length obs)).

(** [s.ewm(span=n, adjust=False).mean()]: the loop of pandas' [ewm]
    kernel with [normalize], [ignore_na=False] and unit time steps.
    [weighted] is the running average (a hole until the first
    observation), [old_wt] the weight it carries. *)
Record ewm_state : Type := EwmState {
  weighted : option Qc;
  old_wt : Qc;
  nobs : nat
}.

Definition alpha_of_span (span : nat) : Qc := (Qc_of_Z 2 / (Qc_of_nat span + 1))%Qc.

Definition ewm_init (x : option Qc) : ewm_state :=
  {| weighted := x; old_wt := 1%Qc; nobs := if x is Some _ then 1 else 0 |}.

Definition ewm_step (alpha : Qc) (st : ewm_state) (cur : option Qc) : ewm_state :=
  let n := (nobs st + if cur is Some _ then 1 else 0)%nat in
  match weighted st with
  | Some wv =>
      let ow := (old_wt st * (1 - alpha))%Qc in
      match cur with
      | Some c =>
          let wv' :=
            if decide (wv = c) then wv
            else ((ow * wv + alpha * c) / (ow + alpha))%Qc in
          {| weighted := Some wv'; old_wt := 1%Qc; nobs := n |}
      | None => {| weighted := Some wv; old_wt := ow; nobs := n |}
      end
  | None => {| weighted := cur; old_wt := old_wt st; nobs := n |}
  end.

Definition ewm_output (st : ewm_state) : float64 :=
  if decide (1 ≤ nobs st) then of_cell (weighted st) else NaN.

Fixpoint ewm_loop (alpha : Qc) (st : ewm_state) (cells : list (option Qc)) : Series :=
  match cells with
  | [] => []
  | cur :: rest =>
      let st' := ewm_step alpha st cur in
      ewm_output st' :: ewm_loop alpha st' rest
  end.

Definition ewm_mean (span : nat) (s : Series) : Series :=
  match map prep_value s with
  | [] => []
  | x0 :: rest =>
      let st := ewm_init x0 in
      ewm_output st :: ewm_loop (alpha_of_span span) st rest
  end.

End Pandas.

(** ** Python values, strings and dictionaries *)

Definition bind_res {A B : Type} (r : res A) (k : A → res B) : res B :=
  match r with
  | Ok a => k a
  | Raise e => Raise e
  end.

Notation "'try!' x ':=' r 'in' k" := (bind_res r (λ x, k))
  (at level 10, x name, r at level 100, k at level 200).

(** The values a yfinance [info] dictionary holds under the keys read here. *)
Inductive pyval : Type :=
| PyNone
| PyBool (b : bool)
| PyInt (z : Z)
| PyFloat (x : float64)
| PyStr (s : string).

(** [bool(v)] *)
Definition truthy (v : pyval) : bool :=
  match v with
  | PyNone => false
  | PyBool b => b
  | PyInt z => negb (z =? 0)%Z
  | PyFloat (Fin q) => negb (bool_decide (q = 0%Qc))
  | PyFloat _ => true
  | PyStr s => negb (String.eqb s "")
  end.

Definition type_name (v : pyval) : string :=
  match v with
  | PyNone => "NoneType"
  | PyBool _ => "bool"
  | PyInt _ => "int"
  | PyFloat _ => "float"
  | PyStr _ => "str"
  end.

(** The number a value stands for in arithmetic ([bool] is an [int]). *)
Definition as_number (v : pyval) : option float64 :=
  match v with
  | PyBool b => Some (f_of_Z (Z.b2z b))
  | PyInt z => Some (f_of_Z z)
  | PyFloat x => Some x
  | PyNone | PyStr _ => None
  end.

Definition is_zero (x : float64) : bool :=
  match x with
  | Fin q => bool_decide (q = 0%Qc)
  | _ => false
  end.

(** The integer a value is, if it is one ([bool] is an [int]). *)
Definition as_int (v : pyval) : option Z :=
  match v with
  | PyBool b => Some (Z.b2z b)
  | PyInt z => Some z
  | PyNone | PyFloat _ | PyStr _ => None
  end.

(** [float(v)] of an [int] raises when the [int] is out of the range. *)
Definition int_too_large (v : pyval) : bool :=
  match v with
  | PyInt z => negb (fits_float (Qc_of_Z z))
  | _ => false
  end.

(** [a / b]: Python's true division raises on a zero divisor, on operands
    that are not numbers, and on an [int] that does not fit a float.  Two
    [int]s are divided exactly and the quotient must fit; with a float
    among the operands the other one is converted first, and a quotient
    of two floats that is too large is an infinity. *)
Definition py_truediv (a b : pyval) : res pyval :=
  match as_number a, as_number b with
  | Some x, Some y =>
      match as_int a, as_int b with
      | Some za, Some zb =>
          if is_zero y then Raise (PyExc "ZeroDivisionError" "division by zero")
          else if fits_float (Qc_of_Z za / Qc_of_Z zb)%Qc then Ok (PyFloat (fdiv x y))
          else Raise (PyExc "OverflowError"
                        "integer division result too large for a float")
      | _, _ =>
          if int_too_large a || int_too_large b then
            Raise (PyExc "OverflowError" "int too large to convert to float")
          else if is_zero y then
            Raise (PyExc "ZeroDivisionError" "float division by zero")
          else Ok (PyFloat (to_range (fdiv x y)))
      end
  | _, _ =>
      Raise (PyExc "TypeError"
               ("unsupported operand type(s) for /: '" +:+ type_name a +:+
                "' and '" +:+ type_name b +:+ "'"))
  end.

Abbreviation Info := (gmap string pyval).

(** [d.get(k)] and [d.get(k, default)] *)
Definition dict_get (d : Info) (k : string) : pyval := default PyNone (d !! k).
Definition dict_get_or (d : Info) (k : string) (dflt : pyval) : pyval :=
  default dflt (d !! k).

Definition nl : string := String (ascii_of_nat 10) EmptyString.

(** [strip], [upper] and [lower] on ASCII text, where they need no table:
    the white space of Python below 128 is 9 to 13, 28 to 31 and 32.  The
    example runtime [plain_floats] uses them; the scripts take the methods
    of their runtime, whatever they do outside ASCII. *)
Definition is_space (c : ascii) : bool :=
  let n := nat_of_ascii c in
  (n =? 32) || ((9 <=? n) && (n <=? 13)) || ((28 <=? n) && (n <=? 31)).

Definition upper_char (c : ascii) : ascii :=
  let n := nat_of_ascii c in
  if (97 <=? n) && (n <=? 122) then ascii_of_nat (n - 32) else c.

Definition lower_char (c : ascii) : ascii :=
  let n := nat_of_ascii c in
  if (65 <=? n) && (n <=? 90) then ascii_of_nat (n + 32) else c.

Fixpoint map_string (f : ascii → ascii) (s : string) : string :=
  match s with
  | EmptyString => EmptyString
  | String c r => String (f c) (map_string f r)
  end.

Definition ascii_upper (s : string) : string := map_string upper_char s.
Definition ascii_lower (s : string) : string := map_string lower_char s.

Fixpoint lstrip (s : string) : string :=
  match s with
  | String c r => if is_space c then lstrip r else s
  | EmptyString => EmptyString
  end.

Definition ascii_strip (s : string) : string :=
  String.rev (lstrip (String.rev (lstrip s))).

(** [s in l] for a list of strings *)
Definition py_in (s : string) (l : list string) : bool := existsb (String.eqb s) l.

(** [sep.join(l)] *)
Fixpoint py_join (sep : string) (l : list string) : string :=
  match l with
  | [] => ""
  | [x] => x
  | x :: r => x +:+ sep +:+ py_join sep r
  end.

(** [s * n] *)
Fixpoint py_repeat (s : string) (n : nat) : string :=
  match n with
  | 0 => ""
  | S k => s +:+ py_repeat s k
  end.

(** What is left to the runtime, as parameters of the model: the text of
    floats ([str(x)] and [format(x, spec)]) and the methods [s.strip()],
    [s.upper()] and [s.lower()] of [str], which follow the Unicode tables
    of the interpreter. *)
Record FloatFormat : Type := {
  str_float : float64 → string;
  format_float : string → float64 → string;
  str_strip : string → string;
  str_upper : string → string;
  str_lower : string → string
}.

(** Digits with a comma between groups of three, from the right. *)
Fixpoint group3 (rev_digits : list ascii) : list ascii :=
  match rev_digits with
  | a :: b :: c :: ((_ :: _) as rest) => a :: b :: c :: ","%char :: group3 rest
  | l => l
  end.

Definition format_int_comma (z : Z) : string :=
  let digits := list_ascii_of_string (pretty (Z.abs z)) in
  (if (z <? 0)%Z then "-" else "") +:+
  string_of_list_ascii (rev (group3 (rev digits))).

(** [str(v)] *)
Definition py_str (ff : FloatFormat) (v : pyval) : string :=
  match v with
  | PyNone => "None"
  | PyBool true => "True"
  | PyBool false => "False"
  | PyInt z => pretty z
  | PyFloat x => str_float ff x
  | PyStr s => s
  end.

(** [format(v, ",")], the [{...:,}] of an f-string *)
Definition format_comma (ff : FloatFormat) (v : pyval) : res string :=
  match v with
  | PyBool b => Ok (format_int_comma (Z.b2z b))
  | PyInt z => Ok (format_int_comma z)
  | PyFloat x => Ok (format_float ff "," x)
  | PyStr _ => Raise (PyExc "ValueError" "Cannot specify ',' with 's'.")
  | PyNone =>
      Raise (PyExc "TypeError" "unsupported format string passed to NoneType.__format__")
  end.

(** [format(v, ".2f")], the [{...:.2f}] of an f-string: an [int] is
    converted to a float first, which raises when it does not fit. *)
Definition format_2f (ff : FloatFormat) (v : pyval) : res string :=
  match v with
  | PyBool b => Ok (format_float ff ".2f" (f_of_Z (Z.b2z b)))
  | PyInt z =>
      if fits_float (Qc_of_Z z) then Ok (format_float ff ".2f" (f_of_Z z))
      else Raise (PyExc "OverflowError" "int too large to convert to float")
  | PyFloat x => Ok (format_float ff ".2f" x)
  | PyStr _ =>
      Raise (PyExc "ValueError" "Unknown format code 'f' for object of type 'str'")
  | PyNone =>
      Raise (PyExc "TypeError" "unsupported format string passed to NoneType.__format__")
  end.

(** ** The market-data provider, the LLM endpoint and the trace *)

(** A row of the price history; only these two columns are read. *)
Record row : Type := Row { Close : float64; Volume : float64 }.

Definition DataFrame : Type := list row.

(** What lies outside the program.  [llm n p] is the answer of the
    endpoint to its [n]-th call (from 0), made with prompt [p]. *)
Record World : Type := {
  yf_info : string → res Info;
  yf_history : string → string → res DataFrame;
  yf_attr : string → string → res unit;
  llm : nat → string → res string;
  elapsed : float64
}.

Inductive event : Type :=
| EvPrint (s : string)
| EvPrompt (s : string)
| EvProvider (ticker attr : string)
| EvLLMCall (prompt : string)
| EvLLMReturn (text : string).

Definition is_llm_call (e : event) : bool :=
  match e with
  | EvLLMCall _ => true
  | _ => false
  end.

Definition is_llm_event (e : event) : bool :=
  match e with
  | EvLLMCall _ | EvLLMReturn _ => true
  | _ => false
  end.

Definition llm_calls (tr : list event) : nat := length (filter is_llm_call tr).

(** A computation reads and extends the trace and returns or raises. *)
Definition M (A : Type) : Type := list event → res A * list event.

Definition ret {A : Type} (a : A) : M A := λ tr, (Ok a, tr).

Definition raise {A : Type} (e : exn) : M A := λ tr, (Raise e, tr).

Definition bind {A B : Type} (m : M A) (k : A → M B) : M B :=
  λ tr, match m tr with
        | (Ok a, tr') => k a tr'
        | (Raise e, tr') => (Raise e, tr')
        end.

Notation "'do!' x ':=' m 'in' k" := (bind m (λ x, k))
  (at level 10, x name, m at level 100, k at level 200).
Notation "'run!' m 'in' k" := (bind m (λ _, k))
  (at level 10, m at level 100, k at level 200).

Definition emit (e : event) : M unit := λ tr, (Ok tt, tr ++ [e]).

Definition lift {A : Type} (r : res A) : M A := λ tr, (r, tr).

(** [try: m  except Exception as e: h e] *)
Definition try_except {A : Type} (m : M A) (h : exn → M A) : M A :=
  λ tr, match m tr with
        | (Ok a, tr') => (Ok a, tr')
        | (Raise e, tr') => h e tr'
        end.

Definition print (s : string) : M unit := emit (EvPrint s).

(** Reading an attribute of [yf.Ticker(ticker)]. *)
Definition provider {A : Type} (ticker attr : string) (r : res A) : M A :=
  run! emit (EvProvider ticker attr) in lift r.

(** One call of the endpoint: the call is logged, then the answer or the
    exception comes back. *)
Definition llm_invoke (w : World) (prompt : string) : M string :=
  λ tr, match llm w (llm_calls tr) prompt with
        | Ok text => (Ok text, tr ++ [EvLLMCall prompt; EvLLMReturn text])
        | Raise e => (Raise e, tr ++ [EvLLMCall prompt])
        end.

(** ** LangChain: prompt templates and chains *)

Inductive piece : Type :=
| Lit (s : string)
| Var (name : string).

Record PromptTemplate : Type := {
  input_variables : list string;
  template : list piece
}.

Definition fill_piece (inputs : gmap string string) (p : piece) : res string :=
  match p with
  | Lit s => Ok s
  | Var name =>
      match inputs !! name with
      | Some v => Ok v
      | None => Raise (PyExc "KeyError" name)
      end
  end.

Fixpoint fill (inputs : gmap string string) (ps : list piece) : res string :=
  match ps with
  | [] => Ok ""
  | p :: rest =>
      try! s := fill_piece inputs p in
      try! t := fill inputs rest in
      Ok (s +:+ t)
  end.

(** [prompt.format] applied to the inputs as keyword arguments *)
Definition format_prompt (p : PromptTemplate) (inputs : gmap string string) : res string :=
  fill inputs (template p).

(** [LLMChain(llm=llm, prompt=p).run(inputs)]: the inputs are checked, the
    prompt is formatted and sent, the text of the answer is returned. *)
Definition chain_run (w : World) (p : PromptTemplate) (inputs : gmap string string)
  : M string :=
  match filter (λ k, inputs !! k = None) (input_variables p) with
  | [] =>
      do! prompt := lift (format_prompt p inputs) in
      llm_invoke w prompt
  | missing =>
      raise (PyExc "ValueError"
               ("Missing some input keys: " +:+ py_join ", " missing))
  end.

(** ** main.py *)

Module MainPy.

(** The pictographs that open the messages, as the source file has them. *)
Definition icon_bank : string := "üè¶".
Definition icon_chart : string := "üìä".
Definition icon_trend : string := "üìà".
Definition icon_case : string := "üíº".
Definition icon_lens : string := "üîç".
Definition icon_bulb : string := "üí°".
Definition icon_hall : string := "üèõÔ∏è".
Definition icon_star : string := "‚≠ê".
Definition icon_gem : string := "üíé".
Definition icon_clock : string := "‚è±Ô∏è".
Definition icon_cross : string := "‚ùå".
Definition icon_warn : string := "‚ö†Ô∏è".

(** [get_comprehensive_stock_data]: every attribute of the ticker is read
    inside one [try]; of the values only [info] and the one-year history
    are used by the caller, the others are dropped here. *)
Definition get_comprehensive_stock_data (w : World) (ticker : string)
  : M (Info * DataFrame) :=
  try_except
    (do! info := provider ticker "info" (yf_info w ticker) in
     do! hist_1y := provider ticker "history(period=1y)" (yf_history w ticker "1y") in
     do! hist_5y := provider ticker "history(period=5y)" (yf_history w ticker "5y") in
     run! provider ticker "recommendations" (yf_attr w ticker "recommendations") in
     run! provider ticker "institutional_holders"
            (yf_attr w ticker "institutional_holders") in
     run! provider ticker "balance_sheet" (yf_attr w ticker "balance_sheet") in
     run! provider ticker "income_stmt" (yf_attr w ticker "income_stmt") in
     run! provider ticker "cashflow" (yf_attr w ticker "cashflow") in
     ret (info, hist_1y))
    (λ e, raise (PyExc "Exception"
                   ("Failed to fetch data for " +:+ ticker +:+ ": " +:+ exn_text e))).

Record Indicators : Type := {
  sma_50 : float64;
  sma_200 : float64;
  rsi : float64;
  macd : float64;
  signal : float64;
  upper_band : float64;
  lower_band : float64;
  volume_avg : float64
}.

Definition calculate_technical_indicators (sqrt : Qc → Qc) (data : DataFrame)
  : res Indicators :=
  let closes := map Close data in
  let volumes := map Volume data in
  (* Moving Averages *)
  let sma_50 := Pandas.rolling_mean 50 closes in
  let sma_200 := Pandas.rolling_mean 200 closes in
  (* RSI *)
  let delta := Pandas.diff closes in
  let gain :=
    Pandas.rolling_mean 14 (Pandas.where_ (λ d, fgtb d (Fin 0%Qc)) (Fin 0%Qc) delta) in
  let loss :=
    Pandas.neg
      (Pandas.rolling_mean 14 (Pandas.where_ (λ d, fltb d (Fin 0%Qc)) (Fin 0%Qc) delta)) in
  let rs := Pandas.div gain loss in
  let rsi :=
    Pandas.scalar_sub (f_of_Z 100)
      (Pandas.scalar_div (f_of_Z 100) (Pandas.scalar_add (f_of_Z 1) rs)) in
  (* MACD *)
  let ema_12 := Pandas.ewm_mean 12 closes in
  let ema_26 := Pandas.ewm_mean 26 closes in
  let macd := Pandas.sub ema_12 ema_26 in
  let signal := Pandas.ewm_mean 9 macd in
  (* Bollinger Bands *)
  let rolling_std := Pandas.rolling_std sqrt 20 closes in
  let upper_band := Pandas.add sma_50 (Pandas.mul_scalar rolling_std (f_of_Z 2)) in
  let lower_band := Pandas.sub sma_50 (Pandas.mul_scalar rolling_std (f_of_Z 2)) in
  try! v_sma_50 := Pandas.iloc_last sma_50 in
  try! v_sma_200 := Pandas.iloc_last sma_200 in
  try! v_rsi := Pandas.iloc_last rsi in
  try! v_macd := Pandas.iloc_last macd in
  try! v_signal := Pandas.iloc_last signal in
  try! v_upper := Pandas.iloc_last upper_band in
  try! v_lower := Pandas.iloc_last lower_band in
  Ok {| sma_50 := v_sma_50;
        sma_200 := v_sma_200;
        rsi := v_rsi;
        macd := v_macd;
        signal := v_signal;
        upper_band := v_upper;
        lower_band := v_lower;
        volume_avg := Pandas.mean volumes |}.

Record Valuation : Type := {
  pe_ratio : pyval;
  forward_pe : pyval;
  peg_ratio : pyval;
  price_to_sales : pyval;
  price_to_book : pyval;
  ev_to_ebitda : pyval
}.

Record Growth : Type := {
  revenue_growth : pyval;
  earnings_growth : pyval;
  ebitda_growth : pyval
}.

Record Profitability : Type := {
  gross_margins : pyval;
  operating_margins : pyval;
  profit_margins : pyval;
  return_on_equity : pyval;
  return_on_assets : pyval
}.

Record FinancialHealth : Type := {
  current_ratio : pyval;
  quick_ratio : pyval;
  debt_to_equity : pyval;
  interest_coverage : pyval
}.

Record ValuationMetrics : Type := {
  valuation : Valuation;
  growth : Growth;
  profitability : Profitability;
  financial_health : FinancialHealth
}.

Definition generate_valuation_metrics (info : Info) : res ValuationMetrics :=
  try! v_interest_coverage :=
    (if truthy (dict_get info "interestExpense")
     then py_truediv (dict_get info "earningsBeforeInterestTaxes")
                     (dict_get info "interestExpense")
     else Ok PyNone) in
  Ok {| valuation :=
          {| pe_ratio := dict_get info "trailingPE";
             forward_pe := dict_get info "forwardPE";
             peg_ratio := dict_get info "pegRatio";
             price_to_sales := dict_get info "priceToSalesTrailing12Months";
             price_to_book := dict_get info "priceToBook";
             ev_to_ebitda := dict_get info "enterpriseToEbitda" |};
        growth :=
          {| revenue_growth := dict_get info "revenueGrowth";
             earnings_growth := dict_get info "earningsGrowth";
             ebitda_growth := dict_get info "ebitdaGrowth" |};
        profitability :=
          {| gross_margins := dict_get info "grossMargins";
             operating_margins := dict_get info "operatingMargins";
             profit_margins := dict_get info "profitMargins";
             return_on_equity := dict_get info "returnOnEquity";
             return_on_assets := dict_get info "returnOnAssets" |};
        financial_health :=
          {| current_ratio := dict_get info "currentRatio";
             quick_ratio := dict_get info "quickRatio";
             debt_to_equity := dict_get info "debtToEquity";
             interest_coverage := v_interest_coverage |} |}.

Definition fundamental_prompt : PromptTemplate := {|
  input_variables := ["ticker"; "info"; "valuation_metrics"];
  template := [
    Lit nl;
    Lit "        Perform comprehensive fundamental analysis for "; Var "ticker"; Lit ":"; Lit nl;
    Lit "        "; Lit nl;
    Lit "        Company Information:"; Lit nl;
    Lit "        "; Var "info"; Lit nl;
    Lit "        "; Lit nl;
    Lit "        Valuation Metrics:"; Lit nl;
    Lit "        "; Var "valuation_metrics"; Lit nl;
    Lit "        "; Lit nl;
    Lit "        Your analysis must include:"; Lit nl;
    Lit "        1. Business Model Analysis (competitive advantages, moat)"; Lit nl;
    Lit "        2. Financial Health Assessment (liquidity, solvency)"; Lit nl;
    Lit "        3. Growth Prospects (historical and projected)"; Lit nl;
    Lit "        4. Valuation Assessment (relative and absolute)"; Lit nl;
    Lit "        5. Industry Position and Competitive Landscape"; Lit nl;
    Lit "        "; Lit nl;
    Lit "        Format as a professional research report with clear sections."; Lit nl;
    Lit "        "
  ]
|}.

Definition technical_prompt : PromptTemplate := {|
  input_variables := ["ticker"; "technical_indicators"; "price_data"];
  template := [
    Lit nl;
    Lit "        Perform technical analysis for "; Var "ticker"; Lit ":"; Lit nl;
    Lit "        "; Lit nl;
    Lit "        Technical Indicators:"; Lit nl;
    Lit "        "; Var "technical_indicators"; Lit nl;
    Lit "        "; Lit nl;
    Lit "        Price Data Summary:"; Lit nl;
    Lit "        "; Var "price_data"; Lit nl;
    Lit "        "; Lit nl;
    Lit "        Analyze:"; Lit nl;
    Lit "        1. Trend Analysis (short, medium, long-term)"; Lit nl;
    Lit "        2. Key Support/Resistance Levels"; Lit nl;
    Lit "        3. Momentum Indicators Interpretation"; Lit nl;
    Lit "        4. Volume Analysis"; Lit nl;
    Lit "        5. Chart Patterns"; Lit nl;
    Lit "        "; Lit nl;
    Lit "        Provide specific price levels for entry/exit points."; Lit nl;
    Lit "        "
  ]
|}.

Definition recommendation_prompt : PromptTemplate := {|
  input_variables := ["ticker"; "fundamental_analysis"; "technical_analysis"];
  template := [
    Lit nl;
    Lit "        Generate institutional investment recommendation for "; Var "ticker"; Lit ":"; Lit nl;
    Lit "        "; Lit nl;
    Lit "        Fundamental Analysis:"; Lit nl;
    Lit "        "; Var "fundamental_analysis"; Lit nl;
    Lit "        "; Lit nl;
    Lit "        Technical Analysis:"; Lit nl;
    Lit "        "; Var "technical_analysis"; Lit nl;
    Lit "        "; Lit nl;
    Lit "        Include:"; Lit nl;
    Lit "        1. Investment Thesis (3-5 key points)"; Lit nl;
    Lit "        2. Price Targets (conservative/base/aggressive)"; Lit nl;
    Lit "        3. Risk Assessment (systematic/unsystematic risks)"; Lit nl;
    Lit "        4. Position Sizing Guidance"; Lit nl;
    Lit "        5. Monitoring Criteria"; Lit nl;
    Lit "        "; Lit nl;
    Lit "        Format for a professional investment committee."; Lit nl;
    Lit "        "
  ]
|}.

(** What the Python and pandas runtime contributes and the model takes
    as given: the square root behind [std()], and the text of [str(...)]
    of a dictionary and of [describe()]. *)
Record Runtime : Type := {
  np_sqrt : Qc → Qc;
  floats : FloatFormat;
  str_info : Info → string;
  str_metrics : ValuationMetrics → string;
  str_indicators : Indicators → string;
  str_describe : DataFrame → string
}.

(** The body of the [try] of [professional_analysis]. *)
Definition professional_analysis_body (rt : Runtime) (w : World) (ticker : string)
  : M unit :=
  (* Step 1: Data Collection *)
  run! print (nl +:+ icon_chart +:+ " Collecting comprehensive data...") in
  do! fetched := get_comprehensive_stock_data w ticker in
  let info := fetched.1 in
  let hist_data := fetched.2 in
  (* Step 2: Technical Analysis *)
  run! print (icon_trend +:+ " Calculating technical indicators...") in
  do! technical_indicators :=
    lift (calculate_technical_indicators (np_sqrt rt) hist_data) in
  (* Step 3: Fundamental Analysis *)
  run! print (icon_case +:+ " Analyzing fundamentals...") in
  do! valuation_metrics := lift (generate_valuation_metrics info) in
  (* Step 4: Run Analysis Chains *)
  run! print (nl +:+ icon_lens +:+ " Conducting fundamental analysis...") in
  do! fundamental_result :=
    chain_run w fundamental_prompt
      (<["ticker" := ticker]>
       (<["info" := str_info rt info]>
        (<["valuation_metrics" := str_metrics rt valuation_metrics]> ∅))) in
  run! print (nl +:+ icon_chart +:+ " Performing technical analysis...") in
  do! technical_result :=
    chain_run w technical_prompt
      (<["ticker" := ticker]>
       (<["technical_indicators" := str_indicators rt technical_indicators]>
        (<["price_data" := str_describe rt hist_data]> ∅))) in
  (* Step 5: Generate Recommendation *)
  run! print (nl +:+ icon_bulb +:+ " Formulating recommendation...") in
  do! recommendation :=
    chain_run w recommendation_prompt
      (<["ticker" := ticker]>
       (<["fundamental_analysis" := fundamental_result]>
        (<["technical_analysis" := technical_result]> ∅))) in
  (* Display Results *)
  run! print (nl +:+ py_repeat "=" 80) in
  run! print (icon_hall +:+ "  INSTITUTIONAL RESEARCH REPORT: " +:+ ticker) in
  run! print (py_repeat "=" 80) in
  run! print (nl +:+ icon_star +:+ " FUNDAMENTAL ANALYSIS:") in
  run! print fundamental_result in
  run! print (nl +:+ icon_trend +:+ " TECHNICAL ANALYSIS:") in
  run! print technical_result in
  run! print (nl +:+ icon_gem +:+ " INVESTMENT RECOMMENDATION:") in
  run! print recommendation in
  run! print (nl +:+ py_repeat "=" 80) in
  print (icon_clock +:+ "  Analysis completed in " +:+
         format_float (floats rt) ".2f" (elapsed w) +:+ " seconds").

Definition professional_analysis (rt : Runtime) (w : World) (ticker : string) : M unit :=
  run! print (nl +:+ icon_bank +:+ " Initiating Professional Analysis for " +:+
              ticker +:+ "...") in
  try_except (professional_analysis_body rt w ticker)
    (λ e, print (nl +:+ icon_cross +:+ " Professional analysis failed: " +:+ exn_text e)).

Definition banner : string :=
  py_join nl [
    "";
    "    #############################################";
    "    #  INSTITUTIONAL STOCK ANALYSIS PLATFORM    #";
    "    #  ---------------------------------------- #";
    "    #  Provides professional-grade analysis for #";
    "    #  fund managers and serious investors     #";
    "    #############################################";
    "    "
  ].

(** How far a session got on the lines typed so far. *)
Inductive session : Type :=
| Exited
| AwaitingInput.

(** The [while True] loop of [main] on the lines typed by the user; when
    they are used up the program sits at its prompt.  ([KeyboardInterrupt]
    is not an [Exception] and lies outside the model.) *)
Fixpoint main_loop (rt : Runtime) (w : World) (lines : list string) : M session :=
  run! emit (EvPrompt (nl +:+ "Enter stock ticker (or 'exit' to quit): ")) in
  match lines with
  | [] => ret AwaitingInput
  | line :: rest =>
      let ticker := str_upper (floats rt) (str_strip (floats rt) line) in
      if py_in (str_lower (floats rt) ticker) ["exit"; "quit"] then
        run! print (nl +:+ "Terminating analysis session...") in
        ret Exited
      else if String.eqb ticker "" then
        run! print "Please enter a valid ticker symbol" in
        main_loop rt w rest
      else
        run! try_except (professional_analysis rt w ticker)
               (λ e, print (nl +:+ icon_warn +:+ "  Error: " +:+ exn_text e)) in
        main_loop rt w rest
  end.

Definition main (rt : Runtime) (w : World) (lines : list string) : M session :=
  run! print banner in
  main_loop rt w lines.

End MainPy.

(** ** app.py *)

Module AppPy.

Definition icon_lens : string := "🔍".
Definition icon_chart : string := "📊".
Definition icon_memo : string := "📝".
Definition icon_trend : string := "📈".
Definition icon_bulb : string := "💡".

(** The dictionary [basic_info], in the order of its keys.  The first
    three values are whatever [info] holds; the others are formatted, or
    the text N/A when the value is missing or false. *)
Definition formatted (info : Info) (key prefix : string)
    (fmt : pyval → res string) : res pyval :=
  if truthy (dict_get info key) then
    try! s := fmt (dict_get_or info key (PyStr "N/A")) in
    Ok (PyStr (prefix +:+ s))
  else Ok (PyStr "N/A").

Definition basic_info (ff : FloatFormat) (info : Info) : res (list (string * pyval)) :=
  let name := dict_get_or info "longName" (PyStr "N/A") in
  let sector := dict_get_or info "sector" (PyStr "N/A") in
  let industry := dict_get_or info "industry" (PyStr "N/A") in
  try! market_cap := formatted info "marketCap" "$" (format_comma ff) in
  try! current_price := formatted info "currentPrice" "$" (format_2f ff) in
  try! high := formatted info "fiftyTwoWeekHigh" "$" (format_2f ff) in
  try! low := formatted info "fiftyTwoWeekLow" "$" (format_2f ff) in
  try! volume := formatted info "averageVolume" "" (format_comma ff) in
  Ok [ ("Name", name);
       ("Sector", sector);
       ("Industry", industry);
       ("Market Cap", market_cap);
       ("Current Price", current_price);
       ("52 Week High", high);
       ("52 Week Low", low);
       ("Average Volume", volume) ].

Definition render_line (ff : FloatFormat) (kv : string * pyval) : string :=
  kv.1 +:+ ": " +:+ py_str ff kv.2.

Definition get_basic_stock_info (ff : FloatFormat) (w : World) (ticker : string)
  : M string :=
  try_except
    (do! info := provider ticker "info" (yf_info w ticker) in
     do! items := lift (basic_info ff info) in
     ret (py_join nl (map (render_line ff) items)))
    (λ e, ret ("Error fetching stock info: " +:+ exn_text e)).

Definition research_prompt : PromptTemplate := {|
  input_variables := ["ticker"; "stock_data"];
  template := [
    Lit nl;
    Lit "        Analyze the following stock ticker: "; Var "ticker"; Lit nl;
    Lit "        "; Lit nl;
    Lit "        Stock Data:"; Lit nl;
    Lit "        "; Var "stock_data"; Lit nl;
    Lit "        "; Lit nl;
    Lit "        Provide a comprehensive overview including:"; Lit nl;
    Lit "        1. Company description"; Lit nl;
    Lit "        2. Key financial metrics"; Lit nl;
    Lit "        3. Recent performance"; Lit nl;
    Lit "        4. Industry position"; Lit nl;
    Lit "        "
  ]
|}.

Definition analysis_prompt : PromptTemplate := {|
  input_variables := ["ticker"; "research_report"];
  template := [
    Lit nl;
    Lit "        Based on this research report for "; Var "ticker"; Lit ":"; Lit nl;
    Lit "        "; Var "research_report"; Lit nl;
    Lit "        "; Lit nl;
    Lit "        Perform detailed analysis covering:"; Lit nl;
    Lit "        1. Valuation assessment"; Lit nl;
    Lit "        2. Growth prospects"; Lit nl;
    Lit "        3. Risk factors"; Lit nl;
    Lit "        4. Competitive advantages"; Lit nl;
    Lit "        "
  ]
|}.

Definition recommendation_prompt : PromptTemplate := {|
  input_variables := ["ticker"; "research_report"; "analysis_report"];
  template := [
    Lit nl;
    Lit "        For stock "; Var "ticker"; Lit ", synthesize this information:"; Lit nl;
    Lit "        "; Lit nl;
    Lit "        RESEARCH SUMMARY:"; Lit nl;
    Lit "        "; Var "research_report"; Lit nl;
    Lit "        "; Lit nl;
    Lit "        ANALYSIS FINDINGS:"; Lit nl;
    Lit "        "; Var "analysis_report"; Lit nl;
    Lit "        "; Lit nl;
    Lit "        Generate an investment recommendation covering:"; Lit nl;
    Lit "        1. Investment thesis"; Lit nl;
    Lit "        2. Price targets"; Lit nl;
    Lit "        3. Risk/reward assessment"; Lit nl;
    Lit "        4. Suggested position size"; Lit nl;
    Lit "        "
  ]
|}.

Definition analyze_stock (ff : FloatFormat) (w : World) (ticker : string) : M unit :=
  run! print (nl +:+ icon_lens +:+ " Analyzing " +:+ ticker +:+ "..." +:+ nl) in
  (* Get basic data *)
  do! stock_data := get_basic_stock_info ff w ticker in
  run! print (icon_chart +:+ " Basic Information:") in
  run! print stock_data in
  (* Run analysis pipeline *)
  do! research_result :=
    chain_run w research_prompt
      (<["ticker" := ticker]> (<["stock_data" := stock_data]> ∅)) in
  run! print (nl +:+ icon_memo +:+ " Research Report:") in
  run! print research_result in
  do! analysis_result :=
    chain_run w analysis_prompt
      (<["ticker" := ticker]> (<["research_report" := research_result]> ∅)) in
  run! print (nl +:+ icon_trend +:+ " Detailed Analysis:") in
  run! print analysis_result in
  do! recommendation :=
    chain_run w recommendation_prompt
      (<["ticker" := ticker]>
       (<["research_report" := research_result]>
        (<["analysis_report" := analysis_result]> ∅))) in
  run! print (nl +:+ icon_bulb +:+ " Investment Recommendation:") in
  print recommendation.

Inductive session : Type :=
| Exited
| AwaitingInput.

(** The [while True] loop of [main] on the lines typed by the user; when
    they are used up the program sits at its prompt. *)
Fixpoint main_loop (ff : FloatFormat) (w : World) (lines : list string) : M session :=
  run! emit (EvPrompt (nl +:+ "Enter stock ticker (or 'quit' to exit): ")) in
  match lines with
  | [] => ret AwaitingInput
  | line :: rest =>
      let ticker := str_upper ff (str_strip ff line) in
      if py_in (str_lower ff ticker) ["quit"; "exit"] then
        run! print "Goodbye!" in
        ret Exited
      else if String.eqb ticker "" then
        run! print "Please enter a valid ticker symbol" in
        main_loop ff w rest
      else
        run! try_except (analyze_stock ff w ticker)
               (λ e, print ("Error analyzing stock: " +:+ exn_text e)) in
        main_loop ff w rest
  end.

Definition main (ff : FloatFormat) (w : World) (lines : list string) : M session :=
  run! print (icon_trend +:+ " Stock Analysis CLI Tool") in
  run! print "-------------------------" in
  main_loop ff w lines.

End AppPy.

(** ** The indicators as the specification words them *)

Module Indicator.

(** The rows of [l] from the [n]-th last on. *)
Definition trailing {A : Type} (n : nat) (l : list A) : list A :=
  drop (length l - n) l.

(** One-day price changes [x_{t} - x_{t-1}], from the second day on. *)
Definition price_changes (xs : list Qc) : list Qc := zip_with Qcminus (tail xs) xs.

Definition gain_of (d : Qc) : Qc := if decide (0 < d)%Qc then d else 0%Qc.
Definition loss_of (d : Qc) : Qc := if decide (d < 0)%Qc then (- d)%Qc else 0%Qc.

(** 14-period RSI at the last row: [100 - 100 / (1 + RS)], with [RS] the
    average gain over the average loss of the trailing 14 changes. *)
Definition rsi_14 (xs : list Qc) : float64 :=
  let ds := trailing 14 (price_changes xs) in
  let avg_gain := (Qc_sum (map gain_of ds) / Qc_of_nat 14)%Qc in
  let avg_loss := (Qc_sum (map loss_of ds) / Qc_of_nat 14)%Qc in
  let rs := fdiv (Fin avg_gain) (Fin avg_loss) in
  fsub (f_of_Z 100) (fdiv (f_of_Z 100) (fadd (f_of_Z 1) rs)).

(** The recurrence [ema_t = a * x_t + (1 - a) * ema_{t-1}], [ema_0 = x_0]. *)
Fixpoint ema_from (a prev : Qc) (xs : list Qc) : list Qc :=
  match xs with
  | [] => []
  | x :: rest =>
      let e := (a * x + (1 - a) * prev)%Qc in
      e :: ema_from a e rest
  end.

Definition ema (n : nat) (xs : list Qc) : list Qc :=
  match xs with
  | [] => []
  | x0 :: rest => x0 :: ema_from (Qc_of_Z 2 / (Qc_of_nat n + 1))%Qc x0 rest
  end.

Definition macd_line (xs : list Qc) : list Qc :=
  zip_with Qcminus (ema 12 xs) (ema 26 xs).

Definition signal_line (xs : list Qc) : list Qc := ema 9 (macd_line xs).

(** Bollinger Bands at the last row: the 20-day rolling mean plus and
    minus two 20-day rolling standard deviations. *)
Definition bollinger (sqrt : Qc → Qc) (closes : Pandas.Series) : res (float64 * float64) :=
  let mid := Pandas.rolling_mean 20 closes in
  let dev := Pandas.mul_scalar (Pandas.rolling_std sqrt 20 closes) (f_of_Z 2) in
  try! upper := Pandas.iloc_last (Pandas.add mid dev) in
  try! lower := Pandas.iloc_last (Pandas.sub mid dev) in
  Ok (upper, lower).

End Indicator.

(** The value of a series at its last row (NaN stands in when there is none). *)
Definition at_last (s : Pandas.Series) : float64 := default NaN (last s).

(** The series of [calculate_technical_indicators], by name. *)
Definition gain_series (closes : Pandas.Series) : Pandas.Series :=
  Pandas.rolling_mean 14
    (Pandas.where_ (λ d, fgtb d (Fin 0%Qc)) (Fin 0%Qc) (Pandas.diff closes)).

Definition loss_series (closes : Pandas.Series) : Pandas.Series :=
  Pandas.neg
    (Pandas.rolling_mean 14
       (Pandas.where_ (λ d, fltb d (Fin 0%Qc)) (Fin 0%Qc) (Pandas.diff closes))).

Definition rsi_series (closes : Pandas.Series) : Pandas.Series :=
  Pandas.scalar_sub (f_of_Z 100)
    (Pandas.scalar_div (f_of_Z 100)
       (Pandas.scalar_add (f_of_Z 1)
          (Pandas.div (gain_series closes) (loss_series closes)))).

Definition macd_series (closes : Pandas.Series) : Pandas.Series :=
  Pandas.sub (Pandas.ewm_mean 12 closes) (Pandas.ewm_mean 26 closes).

Definition signal_series (closes : Pandas.Series) : Pandas.Series :=
  Pandas.ewm_mean 9 (macd_series closes).

Definition band_width (sqrt : Qc → Qc) (closes : Pandas.Series) : Pandas.Series :=
  Pandas.mul_scalar (Pandas.rolling_std sqrt 20 closes) (f_of_Z 2).

(** Equality of floats as a test (NaN is equal to itself here: this is
    identity of values, not the [==] of IEEE). *)
Definition feqb (x y : float64) : bool :=
  match x, y with
  | Fin a, Fin b => bool_decide (a = b)
  | PInf, PInf | NInf, NInf | NaN, NaN => true
  | _, _ => false
  end.

Definition neg_part (d : Qc) : Qc := if decide (d < 0)%Qc then d else 0%Qc.

(** *** Sample histories *)

Definition history_of (closes : list Z) : DataFrame :=
  map (λ z, Row (f_of_Z z) (f_of_Z 1000)) closes.

(** Thirty days at 10 followed by twenty days at 40. *)
Definition step_history : DataFrame :=
  history_of (replicate 30 10%Z ++ replicate 20 40%Z).

Definition fifteen_days : list Z := [44; 45; 43; 44; 46; 47; 45; 46; 48; 47; 49; 50; 48; 49; 51]%Z.

Definition three_days : list Z := [10; 12; 11]%Z.

(** *** Observations on traces *)

Definition llm_events (tr : list event) : list event := filter is_llm_event tr.

(** [needle in hay] for strings *)
Definition contains (needle hay : string) : bool :=
  if String.index 0 needle hay is Some _ then true else false.

(** The answer [r] of the endpoint is printed after it has come back. *)
Definition printed_after_return (r : string) (tr : list event) : Prop :=
  ∃ l1 l2 l3, tr = l1 ++ EvLLMReturn r :: l2 ++ EvPrint r :: l3.

(** *** Sample worlds *)

Definition plain_floats : FloatFormat :=
  {| str_float := λ _, "<float>";
     format_float := λ spec _, "<float:" +:+ spec +:+ ">";
     str_strip := ascii_strip;
     str_upper := ascii_upper;
     str_lower := ascii_lower |}.

Definition plain_runtime : MainPy.Runtime :=
  {| MainPy.np_sqrt := λ q, q;
     MainPy.floats := plain_floats;
     MainPy.str_info := λ _, "<info>";
     MainPy.str_metrics := λ _, "<metrics>";
     MainPy.str_indicators := λ _, "<indicators>";
     MainPy.str_describe := λ _, "<describe>" |}.

Definition acme_info : Info :=
  <["longName" := PyStr "Acme"]>
    (<["marketCap" := PyInt 1234567]> (<["currentPrice" := PyInt 0]> ∅)).

Definition canned_answers (n : nat) : string :=
  match n with
  | 0 => "FIRST-ANSWER"
  | 1 => "SECOND-ANSWER"
  | _ => "THIRD-ANSWER"
  end.

(** The provider and the endpoint both answer. *)
Definition fair_world : World :=
  {| yf_info := λ _, Ok acme_info;
     yf_history := λ _ _, Ok (history_of three_days);
     yf_attr := λ _ _, Ok tt;
     llm := λ n _, Ok (canned_answers n);
     elapsed := f_of_Z 3 |}.

(** The provider is unreachable; the endpoint answers. *)
Definition provider_down : World :=
  {| yf_info := λ _, Raise (PyExc "ConnectionError" "connection refused");
     yf_history := λ _ _, Raise (PyExc "ConnectionError" "connection refused");
     yf_attr := λ _ _, Raise (PyExc "ConnectionError" "connection refused");
     llm := λ n _, Ok (canned_answers n);
     elapsed := f_of_Z 3 |}.

(** The endpoint refuses every call. *)
Definition endpoint_down : World :=
  {| yf_info := λ _, Ok acme_info;
     yf_history := λ _ _, Ok (history_of three_days);
     yf_attr := λ _ _, Ok tt;
     llm := λ _ _, Raise (PyExc "APIConnectionError" "Connection error.");
     elapsed := f_of_Z 3 |}.

(** As [fair_world], with another price history. *)
Definition fair_world_other_prices : World :=
  {| yf_info := λ _, Ok acme_info;
     yf_history := λ _ _, Ok (history_of [20; 30]%Z);
     yf_attr := λ _ _, Ok tt;
     llm := λ n _, Ok (canned_answers n);
     elapsed := f_of_Z 3 |}.

(** *** The traces of runs that go through *)

(** What [analyze_stock] adds to the trace when nothing raises. *)
Definition app_report (ticker stock_data p1 r1 p2 r2 p3 r3 : string) : list event :=
  [ EvPrint (nl +:+ AppPy.icon_lens +:+ " Analyzing " +:+ ticker +:+ "..." +:+ nl);
    EvProvider ticker "info";
    EvPrint (AppPy.icon_chart +:+ " Basic Information:");
    EvPrint stock_data;
    EvLLMCall p1; EvLLMReturn r1;
    EvPrint (nl +:+ AppPy.icon_memo +:+ " Research Report:");
    EvPrint r1;
    EvLLMCall p2; EvLLMReturn r2;
    EvPrint (nl +:+ AppPy.icon_trend +:+ " Detailed Analysis:");
    EvPrint r2;
    EvLLMCall p3; EvLLMReturn r3;
    EvPrint (nl +:+ AppPy.icon_bulb +:+ " Investment Recommendation:");
    EvPrint r3 ].

Definition provider_reads (ticker : string) : list event :=
  [ EvProvider ticker "info";
    EvProvider ticker "history(period=1y)";
    EvProvider ticker "history(period=5y)";
    EvProvider ticker "recommendations";
    EvProvider ticker "institutional_holders";
    EvProvider ticker "balance_sheet";
    EvProvider ticker "income_stmt";
    EvProvider ticker "cashflow" ].

(** What the body of [professional_analysis] adds to the trace when
    nothing raises. *)
Definition main_report (ticker time p1 r1 p2 r2 p3 r3 : string) : list event :=
  [ EvPrint (nl +:+ MainPy.icon_chart +:+ " Collecting comprehensive data...") ] ++
  provider_reads ticker ++
  [ EvPrint (MainPy.icon_trend +:+ " Calculating technical indicators...");
    EvPrint (MainPy.icon_case +:+ " Analyzing fundamentals...");
    EvPrint (nl +:+ MainPy.icon_lens +:+ " Conducting fundamental analysis...");
    EvLLMCall p1; EvLLMReturn r1;
    EvPrint (nl +:+ MainPy.icon_chart +:+ " Performing technical analysis...");
    EvLLMCall p2; EvLLMReturn r2;
    EvPrint (nl +:+ MainPy.icon_bulb +:+ " Formulating recommendation...");
    EvLLMCall p3; EvLLMReturn r3;
    EvPrint (nl +:+ py_repeat "=" 80);
    EvPrint (MainPy.icon_hall +:+ "  INSTITUTIONAL RESEARCH REPORT: " +:+ ticker);
    EvPrint (py_repeat "=" 80);
    EvPrint (nl +:+ MainPy.icon_star +:+ " FUNDAMENTAL ANALYSIS:");
    EvPrint r1;
    EvPrint (nl +:+ MainPy.icon_trend +:+ " TECHNICAL ANALYSIS:");
    EvPrint r2;
    EvPrint (nl +:+ MainPy.icon_gem +:+ " INVESTMENT RECOMMENDATION:");
    EvPrint r3;
    EvPrint (nl +:+ py_repeat "=" 80);
    EvPrint (MainPy.icon_clock +:+ "  Analysis completed in " +:+ time +:+ " seconds") ].

(** *** The fields of [basic_info] *)

(** Label and key of the fields shown as they are. *)
Definition text_fields : list (string * string) :=
  [ ("Name", "longName"); ("Sector", "sector"); ("Industry", "industry") ].

(** Label and key of the fields that are formatted as numbers. *)
Definition number_fields : list (string * string) :=
  [ ("Market Cap", "marketCap");
    ("Current Price", "currentPrice");
    ("52 Week High", "fiftyTwoWeekHigh");
    ("52 Week Low", "fiftyTwoWeekLow");
    ("Average Volume", "averageVolume") ].

(** The value shown under a label. *)
Definition shown (items : list (string * pyval)) (label : string) : option pyval :=
  match list_find (λ kv, kv.1 = label) items with
  | Some (_, kv) => Some kv.2
  | None => None
  end.

(** The provider answers with a name that is [None]. *)
Definition nameless_info : Info :=
  <["longName" := PyNone]> (<["currentPrice" := PyInt 0]> ∅).

Definition nameless_world : World :=
  {| yf_info := λ _, Ok nameless_info;
     yf_history := λ _ _, Ok (history_of three_days);
     yf_attr := λ _ _, Ok tt;
     llm := λ n _, Ok (canned_answers n);
     elapsed := f_of_Z 3 |}.

(** An interest expense without earnings before interest and taxes. *)
Definition interest_only_info : Info := <["interestExpense" := PyInt 5]> ∅.

(** *** Dependence on the price history *)

(** Two worlds that differ at most in the price history they serve. *)
Definition same_but_history (w1 w2 : World) : Prop :=
  yf_info w1 = yf_info w2 ∧ yf_attr w1 = yf_attr w2 ∧
  llm w1 = llm w2 ∧ elapsed w1 = elapsed w2.

(** A session whose outcome changes with the price history alone. *)
Definition reads_price_history {A : Type} (run : World → res A * list event) : Prop :=
  ∃ w1 w2, same_but_history w1 w2 ∧ run w1 ≠ run w2.

(** As [fair_world], with a history without rows. *)
Definition fair_world_no_prices : World :=
  {| yf_info := λ _, Ok acme_info;
     yf_history := λ _ _, Ok [];
     yf_attr := λ _ _, Ok tt;
     llm := λ n _, Ok (canned_answers n);
     elapsed := f_of_Z 3 |}.

Definition app_prompt : string := nl +:+ "Enter stock ticker (or 'quit' to exit): ".
Definition main_prompt : string := nl +:+ "Enter stock ticker (or 'exit' to quit): ".

(** ** Further observations *)

(** What an RSI can be: a number from 0 to 100, or NaN. *)
Definition rsi_value (x : float64) : Prop :=
  match x with
  | Fin q => (0 ≤ q)%Qc ∧ (q ≤ Qc_of_Z 100)%Qc
  | NaN => True
  | PInf | NInf => False
  end.

(** Numbers of which every sum of [n] stays in the range of a float:
    each of them, taken [n] times, fits. *)
Definition sums_fit (n : nat) (qs : list Qc) : bool :=
  forallb (λ q, fits_float (Qc_of_nat n * q)%Qc) qs.

(** The arithmetic mean of a list of rationals. *)
Definition Qc_mean (qs : list Qc) : Qc := (Qc_sum qs / Qc_of_nat (length qs))%Qc.

(** Two hundred days at 5. *)
Definition flat_history : DataFrame := history_of (replicate 200 5%Z).

(** Earnings of 10 against an interest expense of 5. *)
Definition covered_info : Info :=
  <["earningsBeforeInterestTaxes" := PyInt 10]> (<["interestExpense" := PyInt 5]> ∅).

(** A computation that, from any trace, only appends to it, and appends at
    most [n] calls of the endpoint. *)
Definition adds_at_most {A : Type} (n : nat) (m : M A) : Prop :=
  ∀ tr, ∃ new, (m tr).2 = tr ++ new ∧ llm_calls new ≤ n.

(** The test of the loops for a line that ends the session, with the
    methods of the runtime. *)
Definition is_exit_line (ff : FloatFormat) (line : string) : bool :=
  py_in (str_lower ff (str_upper ff (str_strip ff line))) ["quit"; "exit"].

(** Earnings too large for a float against an interest expense of 5. *)
Definition huge_earnings_info : Info :=
  <["earningsBeforeInterestTaxes" := PyInt (10 ^ 400)]>
    (<["interestExpense" := PyInt 5]> ∅).


Module IndicatorF.

(** The formulas of [Indicator] read on closes that may be missing (NaN),
    with the arithmetic of floats: a change from or to a missing close is
    missing, and so is every average that includes it. *)
Definition price_changes (xs : list float64) : list float64 :=
  zip_with fsub (tail xs) xs.

Definition gain_of (d : float64) : float64 :=
  if is_nan d then NaN else if fgtb d (Fin 0%Qc) then d else Fin 0%Qc.

Definition loss_of (d : float64) : float64 :=
  if is_nan d then NaN else if fltb d (Fin 0%Qc) then fneg d else Fin 0%Qc.

Definition rsi_14 (xs : list float64) : float64 :=
  let ds := Indicator.trailing 14 (price_changes xs) in
  let avg_gain := fdiv (fsum (map gain_of ds)) (f_of_nat 14) in
  let avg_loss := fdiv (fsum (map loss_of ds)) (f_of_nat 14) in
  let rs := fdiv avg_gain avg_loss in
  fsub (f_of_Z 100) (fdiv (f_of_Z 100) (fadd (f_of_Z 1) rs)).

Fixpoint ema_from (a prev : float64) (xs : list float64) : list float64 :=
  match xs with
  | [] => []
  | x :: rest =>
      let e := fadd (fmul a x) (fmul (fsub (f_of_Z 1) a) prev) in
      e :: ema_from a e rest
  end.

Definition ema (n : nat) (xs : list float64) : list float64 :=
  match xs with
  | [] => []
  | x0 :: rest => x0 :: ema_from (Fin (Qc_of_Z 2 / (Qc_of_nat n + 1))%Qc) x0 rest
  end.

Definition macd_line (xs : list float64) : list float64 :=
  zip_with fsub (ema 12 xs) (ema 26 xs).

Definition signal_line (xs : list float64) : list float64 := ema 9 (macd_line xs).

End IndicatorF.

(** The closes that are numbers, in order. *)
Definition observed (xs : list float64) : list Qc :=
  omap (λ x, match x with Fin q => Some q | _ => None end) xs.



(** Three days, the close of the second one missing. *)
Definition short_gap_closes : list float64 := [f_of_Z 10; NaN; f_of_Z 12].

Definition short_gap_history : DataFrame :=
  map (λ c, Row c (f_of_Z 1000)) short_gap_closes.

(** * Proofs *)

(** *** Lists *)

Lemma last_map {A B : Type} (f : A → B) (l : list A) : last (map f l) = f <$> last l.
Proof. exact (fmap_last f l). Qed.

Lemma drop_map {A B : Type} (f : A → B) (n : nat) (l : list A) :
  drop n (map f l) = map f (drop n l).
Proof. symmetry. exact (fmap_drop f n l). Qed.

Lemma last_seq (n : nat) : last (seq 0 (S n)) = Some n.
Proof. rewrite last_lookup, length_seq. cbn [pred]. by rewrite lookup_seq_lt by lia. Qed.

Lemma last_zip_with {A B C : Type} (f : A → B → C) (a : list A) (b : list B) :
  length a = length b →
  last (zip_with f a b) =
    match last a, last b with
    | Some x, Some y => Some (f x y)
    | _, _ => None
    end.
Proof.
  intros Hlen. rewrite !last_lookup, length_zip_with, lookup_zip_with, <- Hlen.
  rewrite Nat.min_id.
  destruct (a !! pred (length a)) as [x|] eqn:Ea; simpl.
  - rewrite Hlen in Ea |- *. destruct (b !! pred (length b)) as [y|] eqn:Eb; [done|].
    apply lookup_lt_Some in Ea. apply lookup_ge_None in Eb. lia.
  - done.
Qed.

Lemma zip_with_map_inj {A B : Type} (g : A → B) (f : B → B → B) (h : A → A → A)
    (a b : list A) :
  (∀ x y, f (g x) (g y) = g (h x y)) →
  zip_with f (map g a) (map g b) = map g (zip_with h a b).
Proof.
  intros Hf. revert b. induction a as [|x a IH]; intros [|y b]; simpl; try done.
  by rewrite Hf, IH.
Qed.

Lemma omap_prep_Fin (qs : list Qc) : omap Pandas.prep_value (map Fin qs) = qs.
Proof. induction qs as [|q qs IH]; [done|]. simpl. f_equal. exact IH. Qed.

(** *** Series at the last row *)

Lemma at_last_map (f : float64 → float64) (s : Pandas.Series) :
  s ≠ [] → at_last (map f s) = f (at_last s).
Proof.
  intros Hs. unfold at_last. rewrite last_map.
  destruct (last s) eqn:E; [done|]. by apply last_None in E.
Qed.

Lemma at_last_zip_with (f : float64 → float64 → float64) (a b : Pandas.Series) :
  a ≠ [] → length a = length b →
  at_last (zip_with f a b) = f (at_last a) (at_last b).
Proof.
  intros Ha Hlen. unfold at_last. rewrite last_zip_with by done.
  destruct (last a) eqn:Ea; [|by apply last_None in Ea].
  destruct (last b) eqn:Eb; [done|]. apply last_None in Eb. subst b.
  destruct a; simpl in *; [done|lia].
Qed.

Lemma iloc_last_at_last (s : Pandas.Series) :
  s ≠ [] → Pandas.iloc_last s = Ok (at_last s).
Proof.
  intros Hs. unfold Pandas.iloc_last, at_last.
  destruct (last s) eqn:E; [done|]. by apply last_None in E.
Qed.

Lemma rolling_length w agg s : length (Pandas.rolling w agg s) = length s.
Proof. unfold Pandas.rolling. by rewrite length_map, length_seq. Qed.

Lemma diff_length s : length (Pandas.diff s) = length s.
Proof.
  destruct s as [|x t]; [done|]. simpl. f_equal.
  rewrite length_zip_with. simpl. lia.
Qed.

Lemma ewm_loop_length a st cells : length (Pandas.ewm_loop a st cells) = length cells.
Proof. revert st. induction cells as [|c r IH]; intros st; simpl; [done|]. by rewrite IH. Qed.

Lemma ewm_mean_length n s : length (Pandas.ewm_mean n s) = length s.
Proof.
  unfold Pandas.ewm_mean. destruct s as [|x t]; [done|]. simpl.
  by rewrite ewm_loop_length, length_map.
Qed.

Lemma nonempty_length {A : Type} (l : list A) : l ≠ [] ↔ 0 < length l.
Proof. destruct l; simpl; split; intros; try done; lia. Qed.

(** The last row of a rolling aggregate is the aggregate of the last
    window, when that window holds enough observations. *)
Lemma at_last_rolling w agg s :
  s ≠ [] →
  at_last (Pandas.rolling w agg s) =
    let obs := omap Pandas.prep_value (drop (length s - w) s) in
    if decide (w ≤ length obs) then agg obs else NaN.
Proof.
  intros Hs. unfold at_last, Pandas.rolling.
  destruct s as [|x t]; [done|]. cbn [length].
  rewrite last_map, last_seq. cbn [fmap option_fmap option_map default].
  unfold Pandas.window_at. rewrite (take_ge (x :: t)) by (cbn [length]; lia). done.
Qed.

Lemma length_omap_le {A B : Type} (f : A → option B) (l : list A) :
  length (omap f l) ≤ length l.
Proof.
  induction l as [|x l IH]; [done|]. cbn [omap list_omap length].
  destruct (f x); cbn [length]; fold (omap f l); lia.
Qed.

Lemma at_last_rolling_short w agg s :
  s ≠ [] → length s < w → at_last (Pandas.rolling w agg s) = NaN.
Proof.
  intros Hs Hw. rewrite at_last_rolling by done. cbn zeta.
  destruct (decide _) as [Hle|]; [|done].
  pose proof (length_omap_le Pandas.prep_value (drop (length s - w) s)) as H.
  rewrite length_drop in H. lia.
Qed.

Lemma at_last_rolling_mean_finite w (ys : list Qc) :
  sign (Qc_of_nat w) = Gt → w ≤ length ys →
  at_last (Pandas.rolling_mean w (map Fin ys)) =
    Fin (Qc_sum (Indicator.trailing w ys) / Qc_of_nat w)%Qc.
Proof.
  intros Hw Hlen. unfold Pandas.rolling_mean.
  assert (ys ≠ []) as Hne.
  { intros ->. simpl in Hlen. assert (w = 0) as -> by lia. done. }
  rewrite at_last_rolling by (by destruct ys).
  cbn zeta. rewrite length_map, drop_map, omap_prep_Fin.
  fold (Indicator.trailing w ys).
  assert (length (Indicator.trailing w ys) = w) as Hl.
  { unfold Indicator.trailing. rewrite length_drop. lia. }
  rewrite Hl. destruct (decide (w ≤ w)); [|lia].
  unfold Pandas.mean_agg, f_of_nat, fdiv. by rewrite Hl, Hw.
Qed.

Lemma gain_series_length c : length (gain_series c) = length c.
Proof.
  unfold gain_series, Pandas.rolling_mean, Pandas.where_.
  by rewrite rolling_length, length_map, diff_length.
Qed.

Lemma loss_series_length c : length (loss_series c) = length c.
Proof.
  unfold loss_series, Pandas.neg, Pandas.rolling_mean, Pandas.where_.
  by rewrite length_map, rolling_length, length_map, diff_length.
Qed.

Lemma rsi_series_length c : length (rsi_series c) = length c.
Proof.
  unfold rsi_series, Pandas.scalar_sub, Pandas.scalar_div, Pandas.scalar_add, Pandas.div.
  rewrite !length_map, length_zip_with, gain_series_length, loss_series_length. lia.
Qed.

Lemma macd_series_length c : length (macd_series c) = length c.
Proof.
  unfold macd_series, Pandas.sub. rewrite length_zip_with, !ewm_mean_length. lia.
Qed.

Lemma signal_series_length c : length (signal_series c) = length c.
Proof. unfold signal_series. by rewrite ewm_mean_length, macd_series_length. Qed.

Lemma band_width_length sqrt c : length (band_width sqrt c) = length c.
Proof.
  unfold band_width, Pandas.mul_scalar, Pandas.rolling_std.
  by rewrite length_map, rolling_length.
Qed.

Ltac series_nonempty :=
  apply nonempty_length;
  rewrite ?length_zip_with, ?rsi_series_length, ?macd_series_length,
    ?signal_series_length, ?band_width_length, ?rolling_length, ?length_map;
  try lia.

(** On a history with at least one row the function returns, and each
    entry is the last row of the series computed for it. *)
Lemma calculate_technical_indicators_rows sqrt (data : DataFrame) :
  data ≠ [] →
  let closes := map Close data in
  MainPy.calculate_technical_indicators sqrt data =
    Ok {| MainPy.sma_50 := at_last (Pandas.rolling_mean 50 closes);
          MainPy.sma_200 := at_last (Pandas.rolling_mean 200 closes);
          MainPy.rsi := at_last (rsi_series closes);
          MainPy.macd := at_last (macd_series closes);
          MainPy.signal := at_last (signal_series closes);
          MainPy.upper_band :=
            at_last (Pandas.add (Pandas.rolling_mean 50 closes) (band_width sqrt closes));
          MainPy.lower_band :=
            at_last (Pandas.sub (Pandas.rolling_mean 50 closes) (band_width sqrt closes));
          MainPy.volume_avg := Pandas.mean (map Volume data) |}.
Proof.
  intros Hd closes. apply nonempty_length in Hd.
  assert (0 < length closes) as Hc by (unfold closes; by rewrite length_map).
  unfold MainPy.calculate_technical_indicators.
  fold closes. fold (gain_series closes). fold (loss_series closes).
  fold (rsi_series closes). fold (macd_series closes). fold (signal_series closes).
  fold (band_width sqrt closes).
  unfold Pandas.rolling_mean, Pandas.add, Pandas.sub.
  rewrite !iloc_last_at_last by series_nonempty.
  reflexivity.
Qed.

Lemma calculate_technical_indicators_empty sqrt :
  MainPy.calculate_technical_indicators sqrt [] =
    Raise (PyExc "IndexError" "single positional indexer is out-of-bounds").
Proof. reflexivity. Qed.

(** *** Rationals *)

Lemma Qc_sum_from (a : Qc) (l : list Qc) : foldl Qcplus a l = (a + Qc_sum l)%Qc.
Proof.
  unfold Qc_sum. revert a. induction l as [|x l IH]; intros a; simpl.
  - ring.
  - rewrite (IH (a + x)%Qc), (IH (0 + x)%Qc). ring.
Qed.

Lemma Qc_sum_cons (x : Qc) (l : list Qc) : Qc_sum (x :: l) = (x + Qc_sum l)%Qc.
Proof. unfold Qc_sum at 1. simpl. rewrite Qc_sum_from. ring. Qed.

Lemma fgtb_Fin_0 (d : Qc) :
  (if fgtb (Fin d) (Fin 0%Qc) then Fin d else Fin 0%Qc) = Fin (Indicator.gain_of d).
Proof.
  unfold fgtb, fcompare, Indicator.gain_of.
  destruct (decide (0 < d)%Qc) as [H|H].
  - by rewrite (proj1 (Qcgt_alt d 0%Qc) H).
  - destruct (d ?= 0)%Qc eqn:E; try done; exfalso; apply H; by apply Qcgt_alt.
Qed.

Lemma fltb_Fin_0 (d : Qc) :
  (if fltb (Fin d) (Fin 0%Qc) then Fin d else Fin 0%Qc) = Fin (neg_part d).
Proof.
  unfold fltb, fcompare, neg_part.
  destruct (decide (d < 0)%Qc) as [H|H].
  - by rewrite (proj1 (Qclt_alt d 0%Qc) H).
  - destruct (d ?= 0)%Qc eqn:E; try done; exfalso; apply H; by apply Qclt_alt.
Qed.

Lemma Qc_sum_loss_of (l : list Qc) :
  Qc_sum (map Indicator.loss_of l) = (- Qc_sum (map neg_part l))%Qc.
Proof.
  induction l as [|d l IH]; [by apply Qc_is_canon|].
  cbn [map]. rewrite !Qc_sum_cons, IH.
  unfold Indicator.loss_of, neg_part. destruct (decide _); ring.
Qed.

(** *** The RSI series on finite closes *)

Lemma diff_finite (qs : list Qc) :
  Pandas.diff (map Fin qs) =
    match qs with
    | [] => []
    | _ :: _ => NaN :: map Fin (Indicator.price_changes qs)
    end.
Proof.
  destruct qs as [|x t]; [done|].
  unfold Indicator.price_changes. cbn [tail map Pandas.diff]. f_equal.
  change (Fin x :: map Fin t) with (map Fin (x :: t)).
  by apply zip_with_map_inj.
Qed.

Lemma where_gain_finite (x : Qc) (t : list Qc) :
  Pandas.where_ (λ d, fgtb d (Fin 0%Qc)) (Fin 0%Qc) (Pandas.diff (map Fin (x :: t))) =
    map Fin (0%Qc :: map Indicator.gain_of (Indicator.price_changes (x :: t))).
Proof.
  rewrite diff_finite. unfold Pandas.where_. cbn [map]. f_equal.
  rewrite !map_map. apply map_ext. intros d. apply fgtb_Fin_0.
Qed.

Lemma where_loss_finite (x : Qc) (t : list Qc) :
  Pandas.where_ (λ d, fltb d (Fin 0%Qc)) (Fin 0%Qc) (Pandas.diff (map Fin (x :: t))) =
    map Fin (0%Qc :: map neg_part (Indicator.price_changes (x :: t))).
Proof.
  rewrite diff_finite. unfold Pandas.where_. cbn [map]. f_equal.
  rewrite !map_map. apply map_ext. intros d. apply fltb_Fin_0.
Qed.

Lemma price_changes_length (x : Qc) (t : list Qc) :
  length (Indicator.price_changes (x :: t)) = length t.
Proof. unfold Indicator.price_changes. rewrite length_zip_with. simpl. lia. Qed.

Lemma trailing_cons {A : Type} (n : nat) (x : A) (l : list A) :
  n ≤ length l → Indicator.trailing n (x :: l) = Indicator.trailing n l.
Proof.
  intros H. unfold Indicator.trailing. cbn [length].
  replace (S (length l) - n) with (S (length l - n)) by lia. done.
Qed.

Lemma trailing_map {A B : Type} (f : A → B) (n : nat) (l : list A) :
  Indicator.trailing n (map f l) = map f (Indicator.trailing n l).
Proof. unfold Indicator.trailing. by rewrite length_map, drop_map. Qed.

Lemma at_last_gain_finite (qs : list Qc) :
  15 ≤ length qs →
  at_last (gain_series (map Fin qs)) =
    Fin (Qc_sum (map Indicator.gain_of (Indicator.trailing 14 (Indicator.price_changes qs)))
         / Qc_of_nat 14)%Qc.
Proof.
  intros Hlen. destruct qs as [|x t]; [simpl in Hlen; lia|]. cbn [length] in Hlen.
  unfold gain_series. rewrite where_gain_finite.
  rewrite at_last_rolling_mean_finite;
    [|done|cbn [length]; rewrite length_map, price_changes_length; lia].
  rewrite trailing_cons by (rewrite length_map, price_changes_length; lia).
  by rewrite trailing_map.
Qed.

Lemma at_last_loss_finite (qs : list Qc) :
  15 ≤ length qs →
  at_last (loss_series (map Fin qs)) =
    Fin (Qc_sum (map Indicator.loss_of (Indicator.trailing 14 (Indicator.price_changes qs)))
         / Qc_of_nat 14)%Qc.
Proof.
  intros Hlen. destruct qs as [|x t]; [simpl in Hlen; lia|]. cbn [length] in Hlen.
  unfold loss_series, Pandas.neg. rewrite where_loss_finite.
  rewrite at_last_map.
  2:{ apply nonempty_length. unfold Pandas.rolling_mean.
      rewrite rolling_length. cbn [map length]. lia. }
  rewrite at_last_rolling_mean_finite;
    [|done|cbn [length]; rewrite length_map, price_changes_length; lia].
  rewrite trailing_cons by (rewrite length_map, price_changes_length; lia).
  rewrite trailing_map, Qc_sum_loss_of. cbn [fneg]. f_equal.
  unfold Qcdiv. ring.
Qed.

Lemma at_last_rsi_finite (qs : list Qc) :
  15 ≤ length qs → at_last (rsi_series (map Fin qs)) = Indicator.rsi_14 qs.
Proof.
  intros Hlen.
  assert (0 < length (map Fin qs)) as Hc by (rewrite length_map; lia).
  unfold rsi_series, Pandas.scalar_sub, Pandas.scalar_div, Pandas.scalar_add, Pandas.div.
  rewrite !at_last_map, at_last_zip_with;
    try (apply nonempty_length;
         rewrite ?length_map, ?length_zip_with, ?gain_series_length,
           ?loss_series_length; lia).
  2:{ by rewrite gain_series_length, loss_series_length. }
  by rewrite at_last_gain_finite, at_last_loss_finite.
Qed.

(** *** The exponential averages on finite closes *)

Lemma ewm_step_finite (a prev c : Qc) (k : nat) :
  Pandas.ewm_step a {| Pandas.weighted := Some prev; Pandas.old_wt := 1%Qc; Pandas.nobs := S k |}
    (Some c) =
  {| Pandas.weighted := Some (a * c + (1 - a) * prev)%Qc;
     Pandas.old_wt := 1%Qc; Pandas.nobs := S (S k) |}.
Proof.
  unfold Pandas.ewm_step. cbn [Pandas.weighted Pandas.old_wt Pandas.nobs].
  replace (S k + 1) with (S (S k)) by lia. f_equal. f_equal.
  destruct (decide (prev = c)) as [->|Hne]; [ring|].
  replace (1 * (1 - a) + a)%Qc with 1%Qc by ring.
  unfold Qcdiv. replace (/ 1)%Qc with 1%Qc by (by apply Qc_is_canon). ring.
Qed.

Lemma ewm_loop_finite (a prev : Qc) (k : nat) (xs : list Qc) :
  Pandas.ewm_loop a
    {| Pandas.weighted := Some prev; Pandas.old_wt := 1%Qc; Pandas.nobs := S k |}
    (map Some xs) =
  map Fin (Indicator.ema_from a prev xs).
Proof.
  revert prev k. induction xs as [|x xs IH]; intros prev k; [done|].
  cbn [map Pandas.ewm_loop Indicator.ema_from]. rewrite ewm_step_finite.
  f_equal. apply IH.
Qed.

Lemma ewm_mean_finite (n : nat) (qs : list Qc) :
  Pandas.ewm_mean n (map Fin qs) = map Fin (Indicator.ema n qs).
Proof.
  unfold Pandas.ewm_mean. rewrite map_map. cbn [Pandas.prep_value].
  destruct qs as [|x t]; [done|]. cbn [map Indicator.ema]. f_equal.
  apply (ewm_loop_finite _ x 0).
Qed.

Lemma macd_series_finite (qs : list Qc) :
  macd_series (map Fin qs) = map Fin (Indicator.macd_line qs).
Proof.
  unfold macd_series, Indicator.macd_line, Pandas.sub. rewrite !ewm_mean_finite.
  by apply zip_with_map_inj.
Qed.

Lemma signal_series_finite (qs : list Qc) :
  signal_series (map Fin qs) = map Fin (Indicator.signal_line qs).
Proof.
  unfold signal_series, Indicator.signal_line. by rewrite macd_series_finite, ewm_mean_finite.
Qed.

Lemma ema_length n qs : length (Indicator.ema n qs) = length qs.
Proof.
  destruct qs as [|x t]; [done|]. cbn [Indicator.ema length]. f_equal.
  generalize x (Qc_of_Z 2 / (Qc_of_nat n + 1))%Qc. clear x.
  induction t as [|y t IH]; intros p a; [done|]. cbn [Indicator.ema_from length].
  by rewrite IH.
Qed.

Lemma macd_line_length qs : length (Indicator.macd_line qs) = length qs.
Proof. unfold Indicator.macd_line. rewrite length_zip_with, !ema_length. lia. Qed.

Lemma signal_line_length qs : length (Indicator.signal_line qs) = length qs.
Proof. unfold Indicator.signal_line. by rewrite ema_length, macd_line_length. Qed.

Lemma at_last_Fin (l : list Qc) (q : Qc) :
  last l = Some q → at_last (map Fin l) = Fin q.
Proof. intros H. unfold at_last. by rewrite last_map, H. Qed.

Lemma feqb_eq (x y : float64) : feqb x y = true → x = y.
Proof.
  destruct x, y; simpl; try done. intros H. apply bool_decide_eq_true in H. by subst.
Qed.

Lemma Fin_inj (a b : Qc) : Fin a = Fin b → a = b.
Proof. congruence. Qed.

Lemma Qc_add_cancel_r (a b c : Qc) : (a + c = b + c)%Qc → a = b.
Proof.
  intros H. replace a with (a + c - c)%Qc by ring. rewrite H. ring.
Qed.

(** C1.  The bands the code returns are not the Bollinger Bands of the
    series.  On [step_history] (thirty closes at 10, then twenty at 40)
    [calculate_technical_indicators] returns, for every square root
    function, bands centred on the 50-day mean 22, while the 20-day
    rolling mean plus and minus two 20-day rolling standard deviations
    are centred on 40: [upper_band] and [lower_band] are built from
    [sma_50], not from a 20-day mean. *)
Theorem bollinger_bands_are_centred_on_sma_50 (sqrt : Qc → Qc) :
  let s := sqrt 0%Qc in
  ∃ r,
    MainPy.calculate_technical_indicators sqrt step_history = Ok r ∧
    MainPy.upper_band r = Fin (Qc_of_Z 22 + s * Qc_of_Z 2)%Qc ∧
    MainPy.lower_band r = Fin (Qc_of_Z 22 + - (s * Qc_of_Z 2))%Qc ∧
    Indicator.bollinger sqrt (map Close step_history) =
      Ok (Fin (Qc_of_Z 40 + s * Qc_of_Z 2)%Qc, Fin (Qc_of_Z 40 + - (s * Qc_of_Z 2))%Qc) ∧
    MainPy.upper_band r ≠ Fin (Qc_of_Z 40 + s * Qc_of_Z 2)%Qc ∧
    MainPy.lower_band r ≠ Fin (Qc_of_Z 40 + - (s * Qc_of_Z 2))%Qc.
Proof.
  intros s.
  set (closes := map Close step_history).
  assert (closes ≠ []) as Hne by done.
  assert (length closes = 50) as Hlen by done.
  assert (at_last (Pandas.rolling_mean 50 closes) = Fin (Qc_of_Z 22)) as H50.
  { apply feqb_eq. by vm_compute. }
  assert (at_last (Pandas.rolling_mean 20 closes) = Fin (Qc_of_Z 40)) as H20.
  { apply feqb_eq. by vm_compute. }
  assert (at_last (band_width sqrt closes) = Fin (s * Qc_of_Z 2)%Qc) as Hbw.
  { unfold band_width, Pandas.mul_scalar, Pandas.rolling_std.
    rewrite at_last_map by (apply nonempty_length; rewrite rolling_length; lia).
    rewrite at_last_rolling by done. cbn zeta.
    replace (omap Pandas.prep_value (drop (length closes - 20) closes))
      with (replicate 20 (Qc_of_Z 40)) by done.
    destruct (decide _) as [_|Hn]; [|exfalso; apply Hn; simpl; lia].
    unfold Pandas.std_agg.
    destruct (decide _) as [Hn|_]; [simpl in Hn; lia|].
    replace (Pandas.sample_var (replicate 20 (Qc_of_Z 40))) with 0%Qc
      by (by apply Qc_is_canon).
    done. }
  assert (length (band_width sqrt closes) = 50) as Hbl
    by (by rewrite band_width_length).
  eexists. split; [apply calculate_technical_indicators_rows; by intros ?|].
  cbn [MainPy.upper_band MainPy.lower_band]. fold closes.
  unfold Indicator.bollinger, Pandas.add, Pandas.sub. fold (band_width sqrt closes).
  rewrite !iloc_last_at_last
    by (apply nonempty_length;
        rewrite length_zip_with; unfold Pandas.rolling_mean;
        rewrite rolling_length; lia).
  rewrite !at_last_zip_with;
    try (unfold Pandas.rolling_mean; rewrite rolling_length; lia);
    try (apply nonempty_length; unfold Pandas.rolling_mean; rewrite rolling_length; lia).
  rewrite H50, H20, Hbw. cbn [fadd fsub fneg bind_res].
  repeat split.
  - intros H. apply Fin_inj, Qc_add_cancel_r in H. done.
  - intros H. apply Fin_inj, Qc_add_cancel_r in H. done.
Qed.

Lemma closes_nonempty (data : DataFrame) (qs : list Qc) :
  map Close data = map Fin qs → length qs = length data.
Proof. intros H. apply (f_equal length) in H. rewrite !length_map in H. done. Qed.



(** C7.  For every history with at least one row whose closes are prices
    (finite numbers), [calculate_technical_indicators] returns, its [macd]
    is the last value of the difference of the 12-span and 26-span
    exponential averages of the closes, and its [signal] the last value of
    the 9-span exponential average of that difference, each average being
    the recurrence [ema_t = a * x_t + (1 - a) * ema_{t-1}] with
    [a = 2 / (n + 1)] and [ema_0 = x_0]. *)
Theorem macd_and_signal_follow_the_ema_recurrence
    (sqrt : Qc → Qc) (data : DataFrame) (qs : list Qc) :
  map Close data = map Fin qs →
  data ≠ [] →
  ∃ r m s,
    MainPy.calculate_technical_indicators sqrt data = Ok r ∧
    last (Indicator.macd_line qs) = Some m ∧
    last (Indicator.signal_line qs) = Some s ∧
    MainPy.macd r = Fin m ∧
    MainPy.signal r = Fin s.
Proof.
  intros Hfin Hne. pose proof (closes_nonempty _ _ Hfin) as Hq.
  apply nonempty_length in Hne.
  destruct (last (Indicator.macd_line qs)) as [m|] eqn:Em.
  2:{ apply last_None, (f_equal length) in Em. rewrite macd_line_length in Em.
      simpl in Em. lia. }
  destruct (last (Indicator.signal_line qs)) as [s|] eqn:Es.
  2:{ apply last_None, (f_equal length) in Es. rewrite signal_line_length in Es.
      simpl in Es. lia. }
  eexists _, m, s. split.
  { apply calculate_technical_indicators_rows. by apply nonempty_length. }
  do 2 (split; [done|]). cbn [MainPy.macd MainPy.signal].
  rewrite Hfin, macd_series_finite, signal_series_finite.
  split; by apply at_last_Fin.
Qed.

(** The theorem on a history of three days. *)
Lemma macd_and_signal_follow_the_ema_recurrence_witness :
  ∃ r m s,
    MainPy.calculate_technical_indicators (λ q, q) (history_of three_days) = Ok r ∧
    last (Indicator.macd_line (map Qc_of_Z three_days)) = Some m ∧
    last (Indicator.signal_line (map Qc_of_Z three_days)) = Some s ∧
    MainPy.macd r = Fin m ∧
    MainPy.signal r = Fin s.
Proof.
  apply (macd_and_signal_follow_the_ema_recurrence (λ q, q) (history_of three_days)
           (map Qc_of_Z three_days)).
  - reflexivity.
  - discriminate.
Defined.

(** C8 (amended).  No boundary fill is applied: for every history with at
    least one row, [calculate_technical_indicators] returns, and the
    returned [sma_50] is NaN below 50 rows, [sma_200] below 200 rows,
    [rsi] below 14 rows, and both bands below 20 rows. *)
Theorem short_history_gives_nan (sqrt : Qc → Qc) (data : DataFrame) :
  data ≠ [] →
  ∃ r,
    MainPy.calculate_technical_indicators sqrt data = Ok r ∧
    (length data < 50 → MainPy.sma_50 r = NaN) ∧
    (length data < 200 → MainPy.sma_200 r = NaN) ∧
    (length data < 14 → MainPy.rsi r = NaN) ∧
    (length data < 20 → MainPy.upper_band r = NaN ∧ MainPy.lower_band r = NaN).
Proof.
  intros Hne. set (closes := map Close data).
  assert (closes ≠ []) as Hc by (unfold closes; by destruct data).
  assert (length closes = length data) as Hl by (unfold closes; by rewrite length_map).
  eexists. split; [by apply calculate_technical_indicators_rows|].
  cbn [MainPy.sma_50 MainPy.sma_200 MainPy.rsi MainPy.upper_band MainPy.lower_band].
  fold closes. rewrite <- Hl.
  assert (0 < length closes) as Hpos by (by apply nonempty_length).
  split; [|split; [|split]].
  - intros H. by apply at_last_rolling_short.
  - intros H. by apply at_last_rolling_short.
  - intros H.
    unfold rsi_series, Pandas.scalar_sub, Pandas.scalar_div, Pandas.scalar_add, Pandas.div.
    rewrite !at_last_map, at_last_zip_with;
      try (apply nonempty_length;
           rewrite ?length_map, ?length_zip_with, ?gain_series_length,
             ?loss_series_length; lia).
    2:{ by rewrite gain_series_length, loss_series_length. }
    unfold gain_series, Pandas.rolling_mean.
    rewrite at_last_rolling_short; [done| |].
    + apply nonempty_length. unfold Pandas.where_. rewrite length_map, diff_length. lia.
    + unfold Pandas.where_. rewrite length_map, diff_length. lia.
  - intros H.
    assert (at_last (band_width sqrt closes) = NaN) as Hbw.
    { unfold band_width, Pandas.mul_scalar, Pandas.rolling_std.
      rewrite at_last_map by (apply nonempty_length; rewrite rolling_length; lia).
      by rewrite at_last_rolling_short. }
    unfold Pandas.add, Pandas.sub.
    rewrite !at_last_zip_with;
      try (unfold Pandas.rolling_mean; rewrite rolling_length, ?band_width_length; lia);
      try (apply nonempty_length; unfold Pandas.rolling_mean; rewrite rolling_length; lia).
    rewrite Hbw. unfold fsub. cbn [fneg].
    split; destruct (at_last (Pandas.rolling_mean 50 closes)); reflexivity.
Qed.

(** The theorem on a history of three days. *)
Lemma short_history_gives_nan_witness :
  ∃ r,
    MainPy.calculate_technical_indicators (λ q, q) (history_of three_days) = Ok r ∧
    (length (history_of three_days) < 50 → MainPy.sma_50 r = NaN) ∧
    (length (history_of three_days) < 200 → MainPy.sma_200 r = NaN) ∧
    (length (history_of three_days) < 14 → MainPy.rsi r = NaN) ∧
    (length (history_of three_days) < 20 →
       MainPy.upper_band r = NaN ∧ MainPy.lower_band r = NaN).
Proof.
  apply (short_history_gives_nan (λ q, q) (history_of three_days)). discriminate.
Defined.

(** C8 as stated covers every series; on the history without rows
    nothing is returned: [iloc[-1]] raises IndexError. *)
Lemma empty_history_has_no_last_row :
  MainPy.calculate_technical_indicators (λ q, q) [] =
    Raise (PyExc "IndexError" "single positional indexer is out-of-bounds") ∧
  ¬ (∀ (sqrt : Qc → Qc) (data : DataFrame),
       length data < 50 →
       ∃ r, MainPy.calculate_technical_indicators sqrt data = Ok r ∧
            MainPy.sma_50 r = NaN).
Proof.
  split; [reflexivity|].
  intros H. destruct (H (λ q, q) []) as [r [Hr _]]; [simpl; lia|]. discriminate.
Qed.

Lemma llm_calls_app (a b : list event) : llm_calls (a ++ b) = llm_calls a + llm_calls b.
Proof. unfold llm_calls. by rewrite filter_app, length_app. Qed.

Lemma chain_run_ok w p inputs tr r tr' :
  chain_run w p inputs tr = (Ok r, tr') →
  ∃ prompt,
    format_prompt p inputs = Ok prompt ∧
    llm w (llm_calls tr) prompt = Ok r ∧
    tr' = tr ++ [EvLLMCall prompt; EvLLMReturn r].
Proof.
  unfold chain_run. destruct (filter _ _); [|discriminate].
  unfold bind, lift, llm_invoke.
  destruct (format_prompt p inputs) as [prompt|]; [|discriminate].
  destruct (llm w (llm_calls tr) prompt) as [text|] eqn:El; [|discriminate].
  intros [= <- <-]. by exists prompt.
Qed.

(** A chain that raises leaves no answer in the trace. *)
Lemma chain_run_raise w p inputs tr e tr' :
  chain_run w p inputs tr = (Raise e, tr') →
  tr' = tr ∨ ∃ prompt, tr' = tr ++ [EvLLMCall prompt].
Proof.
  unfold chain_run. destruct (filter _ _).
  - unfold bind, lift, llm_invoke.
    destruct (format_prompt p inputs) as [prompt|]; [|intros [= <- <-]; by left].
    destruct (llm w (llm_calls tr) prompt) as [text|]; [discriminate|].
    intros [= <- <-]. right. by exists prompt.
  - intros [= <- <-]. by left.
Qed.

Lemma get_basic_stock_info_total ff w ticker tr :
  AppPy.get_basic_stock_info ff w ticker tr =
    (Ok match yf_info w ticker with
        | Ok info =>
            match AppPy.basic_info ff info with
            | Ok items => py_join nl (map (AppPy.render_line ff) items)
            | Raise e => "Error fetching stock info: " +:+ exn_text e
            end
        | Raise e => "Error fetching stock info: " +:+ exn_text e
        end,
     tr ++ [EvProvider ticker "info"]).
Proof.
  unfold AppPy.get_basic_stock_info, try_except, bind, provider, lift, emit, ret.
  destruct (yf_info w ticker) as [info|e]; [|reflexivity].
  cbn. destruct (AppPy.basic_info ff info); reflexivity.
Qed.

Lemma bind_print {B : Type} (s : string) (k : unit → M B) (tr : list event) :
  bind (print s) k tr = k tt (tr ++ [EvPrint s]).
Proof. reflexivity. Qed.

Lemma bind_ok_inv {A B : Type} (m : M A) (k : A → M B) tr b tr' :
  bind m k tr = (Ok b, tr') →
  ∃ a tr1, m tr = (Ok a, tr1) ∧ k a tr1 = (Ok b, tr').
Proof.
  unfold bind. destruct (m tr) as [[a|e] tr1]; [|discriminate].
  intros H. by exists a, tr1.
Qed.

Lemma lift_ok_inv {A : Type} (r : res A) tr a tr' :
  lift r tr = (Ok a, tr') → r = Ok a ∧ tr' = tr.
Proof. unfold lift. by intros [= -> ->]. Qed.

Lemma analyze_stock_ok ff w ticker tr tr' :
  AppPy.analyze_stock ff w ticker tr = (Ok tt, tr') →
  ∃ d p1 r1 p2 r2 p3 r3,
    (∀ tr0, ∃ tr1, AppPy.get_basic_stock_info ff w ticker tr0 = (Ok d, tr1)) ∧
    format_prompt AppPy.research_prompt
      (<["ticker" := ticker]> (<["stock_data" := d]> ∅)) = Ok p1 ∧
    format_prompt AppPy.analysis_prompt
      (<["ticker" := ticker]> (<["research_report" := r1]> ∅)) = Ok p2 ∧
    format_prompt AppPy.recommendation_prompt
      (<["ticker" := ticker]>
       (<["research_report" := r1]> (<["analysis_report" := r2]> ∅))) = Ok p3 ∧
    tr' = tr ++ app_report ticker d p1 r1 p2 r2 p3 r3.
Proof.
  intros H. unfold AppPy.analyze_stock in H.
  rewrite bind_print in H.
  apply bind_ok_inv in H as (d & tr1 & Hd & H).
  rewrite get_basic_stock_info_total in Hd. injection Hd as Hd <-.
  rewrite !bind_print in H.
  apply bind_ok_inv in H as (r1 & tr2 & H1 & H).
  apply chain_run_ok in H1 as (p1 & Hp1 & _ & ->).
  rewrite !bind_print in H.
  apply bind_ok_inv in H as (r2 & tr3 & H2 & H).
  apply chain_run_ok in H2 as (p2 & Hp2 & _ & ->).
  rewrite !bind_print in H.
  apply bind_ok_inv in H as (r3 & tr4 & H3 & H).
  apply chain_run_ok in H3 as (p3 & Hp3 & _ & ->).
  rewrite bind_print in H. injection H as <-.
  exists d, p1, r1, p2, r2, p3, r3. repeat split; try done.
  - intros tr0. eexists. rewrite get_basic_stock_info_total. by rewrite Hd.
  - unfold app_report. by rewrite <- !app_assoc.
Qed.

Lemma get_comprehensive_stock_data_ok w ticker tr info hist tr' :
  MainPy.get_comprehensive_stock_data w ticker tr = (Ok (info, hist), tr') →
  yf_info w ticker = Ok info ∧
  yf_history w ticker "1y" = Ok hist ∧
  tr' = tr ++ provider_reads ticker.
Proof.
  unfold MainPy.get_comprehensive_stock_data, try_except, bind, provider, lift, emit, ret.
  destruct (yf_info w ticker) as [i|]; [|discriminate].
  destruct (yf_history w ticker "1y") as [h1|]; [|discriminate].
  destruct (yf_history w ticker "5y") as [h5|]; [|discriminate].
  destruct (yf_attr w ticker "recommendations"); [|discriminate].
  destruct (yf_attr w ticker "institutional_holders"); [|discriminate].
  destruct (yf_attr w ticker "balance_sheet"); [|discriminate].
  destruct (yf_attr w ticker "income_stmt"); [|discriminate].
  destruct (yf_attr w ticker "cashflow"); [|discriminate].
  intros [= <- <- <-]. repeat split. unfold provider_reads. by rewrite <- !app_assoc.
Qed.

Lemma professional_analysis_body_ok rt w ticker tr tr' :
  MainPy.professional_analysis_body rt w ticker tr = (Ok tt, tr') →
  ∃ info hist ind metrics p1 r1 p2 r2 p3 r3,
    yf_info w ticker = Ok info ∧
    yf_history w ticker "1y" = Ok hist ∧
    MainPy.calculate_technical_indicators (MainPy.np_sqrt rt) hist = Ok ind ∧
    MainPy.generate_valuation_metrics info = Ok metrics ∧
    format_prompt MainPy.fundamental_prompt
      (<["ticker" := ticker]>
       (<["info" := MainPy.str_info rt info]>
        (<["valuation_metrics" := MainPy.str_metrics rt metrics]> ∅))) = Ok p1 ∧
    format_prompt MainPy.technical_prompt
      (<["ticker" := ticker]>
       (<["technical_indicators" := MainPy.str_indicators rt ind]>
        (<["price_data" := MainPy.str_describe rt hist]> ∅))) = Ok p2 ∧
    format_prompt MainPy.recommendation_prompt
      (<["ticker" := ticker]>
       (<["fundamental_analysis" := r1]> (<["technical_analysis" := r2]> ∅))) = Ok p3 ∧
    tr' = tr ++ main_report ticker
                  (format_float (MainPy.floats rt) ".2f" (elapsed w))
                  p1 r1 p2 r2 p3 r3.
Proof.
  intros H. unfold MainPy.professional_analysis_body in H.
  rewrite bind_print in H.
  apply bind_ok_inv in H as ([info hist] & tr1 & Hf & H).
  apply get_comprehensive_stock_data_ok in Hf as (Hi & Hh & ->).
  cbn [fst snd] in H.
  rewrite bind_print in H.
  apply bind_ok_inv in H as (ind & tr2 & Hc & H). apply lift_ok_inv in Hc as [Hc ->].
  rewrite bind_print in H.
  apply bind_ok_inv in H as (metrics & tr3 & Hm & H). apply lift_ok_inv in Hm as [Hm ->].
  rewrite bind_print in H.
  apply bind_ok_inv in H as (r1 & tr4 & H1 & H).
  apply chain_run_ok in H1 as (p1 & Hp1 & _ & ->).
  rewrite bind_print in H.
  apply bind_ok_inv in H as (r2 & tr5 & H2 & H).
  apply chain_run_ok in H2 as (p2 & Hp2 & _ & ->).
  rewrite bind_print in H.
  apply bind_ok_inv in H as (r3 & tr6 & H3 & H).
  apply chain_run_ok in H3 as (p3 & Hp3 & _ & ->).
  rewrite !bind_print in H. injection H as <-.
  exists info, hist, ind, metrics, p1, r1, p2, r2, p3, r3.
  repeat split; try done.
  unfold main_report, provider_reads. rewrite <- !app_assoc. reflexivity.
Qed.

Lemma bind_res_ok_inv {A B : Type} (r : res A) (k : A → res B) (b : B) :
  bind_res r k = Ok b → ∃ a, r = Ok a ∧ k a = Ok b.
Proof. destruct r as [a|e]; [|discriminate]. intros H. by exists a. Qed.

Lemma formatted_falsy info key prefix fmt :
  truthy (dict_get info key) = false →
  AppPy.formatted info key prefix fmt = Ok (PyStr "N/A").
Proof. intros H. unfold AppPy.formatted. by rewrite H. Qed.

Lemma basic_info_ok ff info items :
  AppPy.basic_info ff info = Ok items →
  ∃ cap price high low volume,
    AppPy.formatted info "marketCap" "$" (format_comma ff) = Ok cap ∧
    AppPy.formatted info "currentPrice" "$" (format_2f ff) = Ok price ∧
    AppPy.formatted info "fiftyTwoWeekHigh" "$" (format_2f ff) = Ok high ∧
    AppPy.formatted info "fiftyTwoWeekLow" "$" (format_2f ff) = Ok low ∧
    AppPy.formatted info "averageVolume" "" (format_comma ff) = Ok volume ∧
    items = [ ("Name", dict_get_or info "longName" (PyStr "N/A"));
              ("Sector", dict_get_or info "sector" (PyStr "N/A"));
              ("Industry", dict_get_or info "industry" (PyStr "N/A"));
              ("Market Cap", cap);
              ("Current Price", price);
              ("52 Week High", high);
              ("52 Week Low", low);
              ("Average Volume", volume) ].
Proof.
  unfold AppPy.basic_info. intros H.
  apply bind_res_ok_inv in H as (cap & Hcap & H).
  apply bind_res_ok_inv in H as (price & Hprice & H).
  apply bind_res_ok_inv in H as (high & Hhigh & H).
  apply bind_res_ok_inv in H as (low & Hlow & H).
  apply bind_res_ok_inv in H as (volume & Hvolume & H).
  injection H as <-. by exists cap, price, high, low, volume.
Qed.

(** C9 (amended).  [get_basic_stock_info] returns a string for every
    ticker and never raises.  When the fetch or the formatting raises, the
    string is the text Error fetching stock info: followed by the text of
    the exception.  Otherwise it is the eight lines of [basic_info], where
    each of the five number fields is N/A when its value is missing or
    false (a current price of 0 included), and each of the three text
    fields is the value [info] holds, N/A only when the key is missing. *)
Theorem get_basic_stock_info_always_returns_text
    (ff : FloatFormat) (w : World) (ticker : string) (tr : list event) :
  ∃ s,
    AppPy.get_basic_stock_info ff w ticker tr =
      (Ok s, tr ++ [EvProvider ticker "info"]) ∧
    (∀ e, yf_info w ticker = Raise e →
       s = "Error fetching stock info: " +:+ exn_text e) ∧
    (∀ info e, yf_info w ticker = Ok info → AppPy.basic_info ff info = Raise e →
       s = "Error fetching stock info: " +:+ exn_text e) ∧
    (∀ info items, yf_info w ticker = Ok info → AppPy.basic_info ff info = Ok items →
       s = py_join nl (map (AppPy.render_line ff) items) ∧
       (∀ label key, (label, key) ∈ number_fields →
          truthy (dict_get info key) = false →
          shown items label = Some (PyStr "N/A")) ∧
       (∀ label key, (label, key) ∈ text_fields →
          shown items label = Some (dict_get_or info key (PyStr "N/A")) ∧
          (info !! key = None → shown items label = Some (PyStr "N/A")))).
Proof.
  eexists. split; [apply get_basic_stock_info_total|].
  split; [|split].
  - intros e He. by rewrite He.
  - intros info e Hi He. by rewrite Hi, He.
  - intros info items Hi Hitems. rewrite Hi, Hitems. split; [done|].
    apply basic_info_ok in Hitems
      as (cap & price & high & low & volume & Hc & Hp & Hh & Hl & Hv & ->).
    split.
    + intros label key Hin Hfalsy. unfold number_fields in Hin.
      repeat (apply elem_of_cons in Hin as [[= -> ->]|Hin]);
        [..|by apply elem_of_nil in Hin];
        rewrite formatted_falsy in * by done; simplify_eq; reflexivity.
    + intros label key Hin. unfold text_fields in Hin.
      repeat (apply elem_of_cons in Hin as [[= -> ->]|Hin]);
        [..|by apply elem_of_nil in Hin];
        (split; [reflexivity|]); intros Hnone; unfold dict_get_or;
        rewrite Hnone; reflexivity.
Qed.

(** C9 as stated has every false value shown as N/A; a name that is
    present and [None] is shown as None. *)
Lemma a_name_that_is_none_is_shown_as_none :
  truthy (dict_get nameless_info "longName") = false ∧
  AppPy.get_basic_stock_info plain_floats nameless_world "AAPL" [] =
    (Ok (py_join nl [ "Name: None"; "Sector: N/A"; "Industry: N/A";
                      "Market Cap: N/A"; "Current Price: N/A";
                      "52 Week High: N/A"; "52 Week Low: N/A";
                      "Average Volume: N/A" ]),
     [EvProvider "AAPL" "info"]).
Proof. split; reflexivity. Qed.

(** C10.  The division is not fully guarded: with an interest expense of
    5 and no earningsBeforeInterestTaxes, [generate_valuation_metrics]
    raises TypeError ([None / 5]) where a metrics dictionary was to be
    returned. *)
Theorem interest_coverage_raises_without_ebit :
  truthy (dict_get interest_only_info "interestExpense") = true ∧
  interest_only_info !! "earningsBeforeInterestTaxes" = None ∧
  MainPy.generate_valuation_metrics interest_only_info =
    Raise (PyExc "TypeError" "unsupported operand type(s) for /: 'NoneType' and 'int'").
Proof. repeat split; reflexivity. Qed.

(** C3 (amended).  For every ticker whose analysis run raises no
    exception, in app.py and in main.py, the run makes exactly three calls
    of the endpoint, each call coming after the answer to the one before,
    and each of the three answers is printed after it has come back. *)
Theorem a_run_that_does_not_raise_makes_three_calls
    (ff : FloatFormat) (rt : MainPy.Runtime) (w : World) (ticker : string)
    (tr tr' : list event) :
  AppPy.analyze_stock ff w ticker tr = (Ok tt, tr') ∨
  MainPy.professional_analysis_body rt w ticker tr = (Ok tt, tr') →
  ∃ new p1 r1 p2 r2 p3 r3,
    tr' = tr ++ new ∧
    llm_events new =
      [ EvLLMCall p1; EvLLMReturn r1;
        EvLLMCall p2; EvLLMReturn r2;
        EvLLMCall p3; EvLLMReturn r3 ] ∧
    printed_after_return r1 new ∧
    printed_after_return r2 new ∧
    printed_after_return r3 new.
Proof.
  intros [H|H].
  - apply analyze_stock_ok in H as (d & p1 & r1 & p2 & r2 & p3 & r3 & _ & _ & _ & _ & ->).
    exists (app_report ticker d p1 r1 p2 r2 p3 r3), p1, r1, p2, r2, p3, r3.
    split; [done|]. split; [reflexivity|].
    set (new := app_report ticker d p1 r1 p2 r2 p3 r3).
    split; [|split].
    + by exists (take 5 new), (take 1 (drop 6 new)), (drop 8 new).
    + by exists (take 9 new), (take 1 (drop 10 new)), (drop 12 new).
    + by exists (take 13 new), (take 1 (drop 14 new)), (drop 16 new).
  - apply professional_analysis_body_ok in H
      as (info & hist & ind & metrics & p1 & r1 & p2 & r2 & p3 & r3 &
          _ & _ & _ & _ & _ & _ & _ & ->).
    set (new := main_report ticker _ p1 r1 p2 r2 p3 r3).
    exists new, p1, r1, p2, r2, p3, r3.
    split; [done|]. split; [reflexivity|].
    split; [|split].
    + by exists (take 13 new), (take 10 (drop 14 new)), (drop 25 new).
    + by exists (take 16 new), (take 9 (drop 17 new)), (drop 27 new).
    + by exists (take 19 new), (take 8 (drop 20 new)), (drop 29 new).
Qed.

(** The theorem on a run of app.py in a world where everything answers. *)
Lemma a_run_that_does_not_raise_makes_three_calls_witness :
  ∃ new p1 r1 p2 r2 p3 r3,
    (AppPy.analyze_stock plain_floats fair_world "AAPL" []).2 = [] ++ new ∧
    llm_events new =
      [ EvLLMCall p1; EvLLMReturn r1;
        EvLLMCall p2; EvLLMReturn r2;
        EvLLMCall p3; EvLLMReturn r3 ] ∧
    printed_after_return r1 new ∧
    printed_after_return r2 new ∧
    printed_after_return r3 new.
Proof.
  apply (a_run_that_does_not_raise_makes_three_calls
           plain_floats plain_runtime fair_world "AAPL" []).
  left. vm_compute. reflexivity.
Defined.

(** C3 as stated covers every ticker; when the provider cannot be
    reached, the run of main.py prints the failure and calls the endpoint
    not once. *)
Lemma a_failed_fetch_makes_no_call :
  MainPy.professional_analysis plain_runtime provider_down "AAPL" [] =
    (Ok tt,
     [ EvPrint (nl +:+ MainPy.icon_bank +:+
                " Initiating Professional Analysis for AAPL...");
       EvPrint (nl +:+ MainPy.icon_chart +:+ " Collecting comprehensive data...");
       EvProvider "AAPL" "info";
       EvPrint (nl +:+ MainPy.icon_cross +:+
                " Professional analysis failed: " +:+
                "Failed to fetch data for AAPL: connection refused") ]) ∧
  llm_calls (MainPy.professional_analysis plain_runtime provider_down "AAPL" []).2 = 0.
Proof. split; reflexivity. Qed.

Lemma llm_events_app_report ticker d p1 r1 p2 r2 p3 r3 :
  llm_events (app_report ticker d p1 r1 p2 r2 p3 r3) =
    [ EvLLMCall p1; EvLLMReturn r1; EvLLMCall p2; EvLLMReturn r2;
      EvLLMCall p3; EvLLMReturn r3 ].
Proof. reflexivity. Qed.

Lemma llm_events_main_report ticker t p1 r1 p2 r2 p3 r3 :
  llm_events (main_report ticker t p1 r1 p2 r2 p3 r3) =
    [ EvLLMCall p1; EvLLMReturn r1; EvLLMCall p2; EvLLMReturn r2;
      EvLLMCall p3; EvLLMReturn r3 ].
Proof. reflexivity. Qed.

(** C2 (amended).  In a run that raises no exception, app.py fills its
    second prompt with the ticker and the first answer, and its third
    prompt with the ticker and the first two answers.  main.py fills its
    second prompt with the ticker, the technical indicators and the price
    summary, not with the first answer, and its third prompt with the
    ticker and the first two answers. *)
Theorem prompts_are_filled_with_earlier_answers
    (ff : FloatFormat) (rt : MainPy.Runtime) (w : World) (ticker : string)
    (tr tr' : list event) :
  (AppPy.analyze_stock ff w ticker tr = (Ok tt, tr') →
   ∃ new p1 r1 p2 r2 p3 r3,
     tr' = tr ++ new ∧
     llm_events new =
       [ EvLLMCall p1; EvLLMReturn r1; EvLLMCall p2; EvLLMReturn r2;
         EvLLMCall p3; EvLLMReturn r3 ] ∧
     format_prompt AppPy.analysis_prompt
       (<["ticker" := ticker]> (<["research_report" := r1]> ∅)) = Ok p2 ∧
     format_prompt AppPy.recommendation_prompt
       (<["ticker" := ticker]>
        (<["research_report" := r1]> (<["analysis_report" := r2]> ∅))) = Ok p3) ∧
  (MainPy.professional_analysis_body rt w ticker tr = (Ok tt, tr') →
   ∃ new hist ind p1 r1 p2 r2 p3 r3,
     tr' = tr ++ new ∧
     llm_events new =
       [ EvLLMCall p1; EvLLMReturn r1; EvLLMCall p2; EvLLMReturn r2;
         EvLLMCall p3; EvLLMReturn r3 ] ∧
     yf_history w ticker "1y" = Ok hist ∧
     MainPy.calculate_technical_indicators (MainPy.np_sqrt rt) hist = Ok ind ∧
     format_prompt MainPy.technical_prompt
       (<["ticker" := ticker]>
        (<["technical_indicators" := MainPy.str_indicators rt ind]>
         (<["price_data" := MainPy.str_describe rt hist]> ∅))) = Ok p2 ∧
     format_prompt MainPy.recommendation_prompt
       (<["ticker" := ticker]>
        (<["fundamental_analysis" := r1]> (<["technical_analysis" := r2]> ∅))) = Ok p3).
Proof.
  split; intros H.
  - apply analyze_stock_ok in H
      as (d & p1 & r1 & p2 & r2 & p3 & r3 & _ & _ & Hp2 & Hp3 & ->).
    by exists (app_report ticker d p1 r1 p2 r2 p3 r3), p1, r1, p2, r2, p3, r3.
  - apply professional_analysis_body_ok in H
      as (info & hist & ind & metrics & p1 & r1 & p2 & r2 & p3 & r3 &
          _ & Hh & Hc & _ & _ & Hp2 & Hp3 & ->).
    eexists _, hist, ind, p1, r1, p2, r2, p3, r3.
    split; [reflexivity|]. by rewrite llm_events_main_report.
Qed.

(** The theorem on a run of app.py in a world where everything answers. *)
Lemma prompts_are_filled_with_earlier_answers_witness :
  (∃ new p1 r1 p2 r2 p3 r3,
     (AppPy.analyze_stock plain_floats fair_world "AAPL" []).2 = [] ++ new ∧
     llm_events new =
       [ EvLLMCall p1; EvLLMReturn r1; EvLLMCall p2; EvLLMReturn r2;
         EvLLMCall p3; EvLLMReturn r3 ] ∧
     format_prompt AppPy.analysis_prompt
       (<["ticker" := "AAPL"]> (<["research_report" := r1]> ∅)) = Ok p2 ∧
     format_prompt AppPy.recommendation_prompt
       (<["ticker" := "AAPL"]>
        (<["research_report" := r1]> (<["analysis_report" := r2]> ∅))) = Ok p3).
Proof.
  apply (proj1 (prompts_are_filled_with_earlier_answers
                  plain_floats plain_runtime fair_world "AAPL" []
                  (AppPy.analyze_stock plain_floats fair_world "AAPL" []).2)).
  vm_compute. reflexivity.
Defined.

(** C2 as stated has the second prompt filled with the first answer; in
    main.py the second prompt does not hold it, the third holds both. *)
Lemma the_technical_prompt_leaves_out_the_first_answer :
  ∃ p1 p2 p3 tr,
    MainPy.professional_analysis_body plain_runtime fair_world "AAPL" [] = (Ok tt, tr) ∧
    llm_events tr =
      [ EvLLMCall p1; EvLLMReturn "FIRST-ANSWER";
        EvLLMCall p2; EvLLMReturn "SECOND-ANSWER";
        EvLLMCall p3; EvLLMReturn "THIRD-ANSWER" ] ∧
    contains "FIRST-ANSWER" p2 = false ∧
    contains "FIRST-ANSWER" p3 = true ∧
    contains "SECOND-ANSWER" p3 = true.
Proof.
  eexists _, _, _, _. split; [vm_compute; reflexivity|].
  split; [vm_compute; reflexivity|]. repeat split; vm_compute; reflexivity.
Qed.

Lemma py_in_swap (s a b : string) : py_in s [a; b] = py_in s [b; a].
Proof. unfold py_in. simpl. by destruct (String.eqb s a), (String.eqb s b). Qed.

Lemma app_main_loop_cons ff w line rest tr :
  AppPy.main_loop ff w (line :: rest) tr =
    let ticker := str_upper ff (str_strip ff line) in
    let tr0 := tr ++ [EvPrompt app_prompt] in
    if py_in (str_lower ff ticker) ["quit"; "exit"] then
      (Ok AppPy.Exited, tr0 ++ [EvPrint "Goodbye!"])
    else if String.eqb ticker "" then
      AppPy.main_loop ff w rest (tr0 ++ [EvPrint "Please enter a valid ticker symbol"])
    else
      match AppPy.analyze_stock ff w ticker tr0 with
      | (Ok _, tr1) => AppPy.main_loop ff w rest tr1
      | (Raise e, tr1) =>
          AppPy.main_loop ff w rest
            (tr1 ++ [EvPrint ("Error analyzing stock: " +:+ exn_text e)])
      end.
Proof.
  cbn [AppPy.main_loop]. cbv zeta. unfold bind, try_except, print, emit, ret, app_prompt.
  destruct (py_in _ _); [reflexivity|]. destruct (String.eqb _ _); [reflexivity|].
  by destruct (AppPy.analyze_stock _ _ _ _) as [[[]|e] tr1].
Qed.

(** *** app.py does not depend on the price history *)

Lemma analyze_stock_same_but_history ff w1 w2 ticker tr :
  same_but_history w1 w2 →
  AppPy.analyze_stock ff w1 ticker tr = AppPy.analyze_stock ff w2 ticker tr.
Proof.
  destruct w1, w2. unfold same_but_history. cbn.
  intros (-> & -> & -> & ->). reflexivity.
Qed.

Lemma app_main_loop_same_but_history ff w1 w2 lines tr :
  same_but_history w1 w2 →
  AppPy.main_loop ff w1 lines tr = AppPy.main_loop ff w2 lines tr.
Proof.
  intros Hw. revert tr. induction lines as [|line rest IH]; intros tr; [done|].
  rewrite !app_main_loop_cons. cbv zeta.
  destruct (py_in _ _); [done|]. destruct (String.eqb _ _); [apply IH|].
  rewrite (analyze_stock_same_but_history ff w1 w2) by done.
  destruct (AppPy.analyze_stock ff w2 _ _) as [[[]|e] tr1]; apply IH.
Qed.

Lemma app_main_same_but_history ff w1 w2 lines tr :
  same_but_history w1 w2 →
  AppPy.main ff w1 lines tr = AppPy.main ff w2 lines tr.
Proof.
  intros Hw. unfold AppPy.main. rewrite !bind_print.
  by apply app_main_loop_same_but_history.
Qed.

(** C5 (amended).  Both scripts read the provider, fill prompt templates
    and, when nothing raises, call the endpoint three times in sequence
    and print each answer.  Only main.py computes rolling statistics and
    fills a prompt with them; app.py fills its first prompt with the basic
    information and no session of it depends on the price history. *)
Theorem only_main_py_computes_rolling_statistics
    (ff : FloatFormat) (rt : MainPy.Runtime) (w : World) (ticker : string)
    (tr tr' : list event) :
  (∀ w2 lines, same_but_history w w2 →
     AppPy.main ff w lines tr = AppPy.main ff w2 lines tr) ∧
  (AppPy.analyze_stock ff w ticker tr = (Ok tt, tr') →
   ∃ d p1 r1 p2 r2 p3 r3,
     (∀ tr0, AppPy.get_basic_stock_info ff w ticker tr0 =
               (Ok d, tr0 ++ [EvProvider ticker "info"])) ∧
     format_prompt AppPy.research_prompt
       (<["ticker" := ticker]> (<["stock_data" := d]> ∅)) = Ok p1 ∧
     tr' = tr ++ app_report ticker d p1 r1 p2 r2 p3 r3) ∧
  (MainPy.professional_analysis_body rt w ticker tr = (Ok tt, tr') →
   ∃ hist ind p1 r1 p2 r2 p3 r3,
     yf_history w ticker "1y" = Ok hist ∧
     MainPy.calculate_technical_indicators (MainPy.np_sqrt rt) hist = Ok ind ∧
     format_prompt MainPy.technical_prompt
       (<["ticker" := ticker]>
        (<["technical_indicators" := MainPy.str_indicators rt ind]>
         (<["price_data" := MainPy.str_describe rt hist]> ∅))) = Ok p2 ∧
     tr' = tr ++ main_report ticker
                   (format_float (MainPy.floats rt) ".2f" (elapsed w))
                   p1 r1 p2 r2 p3 r3).
Proof.
  split; [|split].
  - intros w2 lines Hw. by apply app_main_same_but_history.
  - intros H. apply analyze_stock_ok in H
      as (d & p1 & r1 & p2 & r2 & p3 & r3 & Hd & Hp1 & _ & _ & ->).
    exists d, p1, r1, p2, r2, p3, r3. split; [|done].
    intros tr0. destruct (Hd tr0) as [tr1 Hd0]. rewrite Hd0. f_equal.
    rewrite get_basic_stock_info_total in Hd0. by injection Hd0.
  - intros H. apply professional_analysis_body_ok in H
      as (info & hist & ind & metrics & p1 & r1 & p2 & r2 & p3 & r3 &
          _ & Hh & Hc & _ & _ & Hp2 & _ & ->).
    by exists hist, ind, p1, r1, p2, r2, p3, r3.
Qed.

(** The theorem on two worlds that differ in the price history. *)
Lemma only_main_py_computes_rolling_statistics_witness :
  AppPy.main plain_floats fair_world ["aapl"] [] =
    AppPy.main plain_floats fair_world_no_prices ["aapl"] [] ∧
  (∃ hist ind p1 r1 p2 r2 p3 r3,
     yf_history fair_world "AAPL" "1y" = Ok hist ∧
     MainPy.calculate_technical_indicators (MainPy.np_sqrt plain_runtime) hist = Ok ind ∧
     format_prompt MainPy.technical_prompt
       (<["ticker" := "AAPL"]>
        (<["technical_indicators" := MainPy.str_indicators plain_runtime ind]>
         (<["price_data" := MainPy.str_describe plain_runtime hist]> ∅))) = Ok p2 ∧
     (MainPy.professional_analysis_body plain_runtime fair_world "AAPL" []).2 =
       [] ++ main_report "AAPL"
               (format_float (MainPy.floats plain_runtime) ".2f" (elapsed fair_world))
               p1 r1 p2 r2 p3 r3).
Proof.
  pose proof (only_main_py_computes_rolling_statistics
                plain_floats plain_runtime fair_world "AAPL" []
                (MainPy.professional_analysis_body plain_runtime fair_world "AAPL" []).2)
    as (Happ & _ & Hmain).
  split.
  - apply Happ. repeat split.
  - apply Hmain. vm_compute. reflexivity.
Defined.

(** C5 as stated has both scripts compute rolling statistics; no session
    of app.py depends on the price history, while sessions of main.py
    do. *)
Lemma app_py_never_reads_the_price_history :
  ¬ (∃ ff lines, reads_price_history (λ w, AppPy.main ff w lines [])) ∧
  reads_price_history (λ w, MainPy.main plain_runtime w ["aapl"] []).
Proof.
  split.
  - intros (ff & lines & w1 & w2 & Hw & Hne). apply Hne.
    by apply app_main_same_but_history.
  - exists fair_world, fair_world_no_prices. split; [repeat split|].
    intros H. apply (f_equal (λ r, length r.2)) in H. vm_compute in H. discriminate.
Qed.


(** * Further properties of the code *)

(** *** Numbers *)

(** *** Signs *)

Lemma sign_Gt (q : Qc) : sign q = Gt ↔ (0 < q)%Qc.
Proof. unfold sign. symmetry. apply Qcgt_alt. Qed.

Lemma sign_Lt (q : Qc) : sign q = Lt ↔ (q < 0)%Qc.
Proof. unfold sign. symmetry. apply Qclt_alt. Qed.

Lemma sign_Eq (q : Qc) : sign q = Eq ↔ q = 0%Qc.
Proof. unfold sign. symmetry. apply Qceq_alt. Qed.

Lemma Qc_of_nat_pos (n : nat) : 0 < n → (0 < Qc_of_nat n)%Qc.
Proof.
  intros Hn. unfold Qc_of_nat, Qc_of_Z, Qclt, Q2Qc. cbn [this].
  rewrite !Qred_correct. unfold Qlt. simpl. lia.
Qed.

Lemma sign_Qc_of_nat (n : nat) : 0 < n → sign (Qc_of_nat n) = Gt.
Proof. intros Hn. by apply sign_Gt, Qc_of_nat_pos. Qed.

Lemma Qc_sum_nonneg (l : list Qc) :
  (∀ x, x ∈ l → (0 ≤ x)%Qc) → (0 ≤ Qc_sum l)%Qc.
Proof.
  induction l as [|x l IH]; intros H; [done|].
  rewrite Qc_sum_cons. apply Qcplus_nonneg_nonneg.
  - apply H. by left.
  - apply IH. intros y Hy. apply H. by right.
Qed.

Lemma gain_of_nonneg (d : Qc) : (0 ≤ Indicator.gain_of d)%Qc.
Proof.
  unfold Indicator.gain_of. destruct (decide _) as [H|H]; [|done].
  by apply Qclt_le_weak.
Qed.

Lemma loss_of_nonneg (d : Qc) : (0 ≤ Indicator.loss_of d)%Qc.
Proof.
  unfold Indicator.loss_of. destruct (decide _) as [H|H]; [|done].
  apply Qclt_le_weak in H. apply Qcopp_le_compat in H. exact H.
Qed.

Lemma Qc_div_nonneg (a b : Qc) : (0 ≤ a)%Qc → (0 < b)%Qc → (0 ≤ a / b)%Qc.
Proof.
  intros Ha Hb. unfold Qcdiv. apply Qcmult_nonneg_nonneg; [done|].
  apply Qclt_le_weak. by apply Qcinv_pos.
Qed.

Lemma Qc_div_le_self (a d : Qc) : (0 ≤ a)%Qc → (1 ≤ d)%Qc → (a / d ≤ a)%Qc.
Proof.
  intros Ha Hd.
  assert (0 < d)%Qc as Hpos by (eapply Qclt_le_trans; [|exact Hd]; done).
  assert (/ d ≤ 1)%Qc as Hinv.
  { apply (Qcmult_le_mono_pos_r _ _ d Hpos).
    rewrite Qcmult_inv_l by (intros ->; by apply (Qcle_not_lt 0%Qc 0%Qc) in Hpos).
    by rewrite Qcmult_1_l. }
  unfold Qcdiv. rewrite <- (Qcmult_1_r a) at 2.
  by apply Qcmult_le_mono_nonneg_l.
Qed.

Lemma Qc_sub_nonneg_le (a x : Qc) : (0 ≤ x)%Qc → (a + - x ≤ a)%Qc.
Proof.
  intros H. apply Qcle_minus_iff.
  by replace (a + - (a + - x))%Qc with x by ring.
Qed.

(** The formula of the RSI stays between 0 and 100 whatever the two
    averages, as long as neither is negative. *)
Lemma rsi_formula_value (g l : Qc) :
  (0 ≤ g)%Qc → (0 ≤ l)%Qc →
  rsi_value (fsub (f_of_Z 100) (fdiv (f_of_Z 100) (fadd (f_of_Z 1) (fdiv (Fin g) (Fin l))))).
Proof.
  intros Hg Hl. unfold fdiv at 2.
  destruct (sign l) eqn:El.
  - destruct (sign g) eqn:Eg; cbn.
    + done.
    + apply sign_Lt in Eg. by apply Qcle_not_lt in Hg.
    + split; by vm_compute.
  - apply sign_Lt in El. by apply Qcle_not_lt in Hl.
  - apply sign_Gt in El.
    assert (0 ≤ g / l)%Qc as Hrs by (by apply Qc_div_nonneg).
    cbn [fadd f_of_Z].
    set (d := (Qc_of_Z 1 + g / l)%Qc).
    assert (1 ≤ d)%Qc as Hd.
    { unfold d. rewrite <- (Qcplus_0_r 1) at 1.
      by apply Qcplus_le_mono_l. }
    assert (0 < d)%Qc as Hpos by (eapply Qclt_le_trans; [|exact Hd]; done).
    unfold fdiv. rewrite (proj2 (sign_Gt d) Hpos). cbn [fsub fneg fadd].
    assert (0 ≤ Qc_of_Z 100)%Qc as H100 by (by vm_compute).
    pose proof (Qc_div_nonneg (Qc_of_Z 100) d H100 Hpos) as Hlo.
    pose proof (Qc_div_le_self (Qc_of_Z 100) d H100 Hd) as Hhi.
    split.
    + by apply Qcle_minus_iff in Hhi.
    + by apply Qc_sub_nonneg_le.
Qed.

Lemma closes_rows (data : DataFrame) (qs : list Qc) :
  map Close data = map Fin qs → length qs = length data.
Proof. intros H. apply (f_equal length) in H. by rewrite !length_map in H. Qed.

(** X1.  [calculate_technical_indicators] returns its eight indicators
    exactly when the price history has one row at least; on an empty
    history, and only then, it raises IndexError, from the [iloc[-1]] of
    an empty series. *)
Theorem indicators_are_returned_exactly_for_a_history_with_rows
    (sqrt : Qc → Qc) (data : DataFrame) :
  ((∃ r, MainPy.calculate_technical_indicators sqrt data = Ok r) ↔ data ≠ []) ∧
  (MainPy.calculate_technical_indicators sqrt data =
     Raise (PyExc "IndexError" "single positional indexer is out-of-bounds") ↔
   data = []).
Proof.
  destruct data as [|x t].
  - rewrite calculate_technical_indicators_empty. split; split; try done.
    by intros [r ?].
  - rewrite (calculate_technical_indicators_rows sqrt (x :: t)) by done.
    split; split; try done. intros _. by eexists.
Qed.

(** X2.  On a history of 50 rows or more whose closes are numbers small
    enough for the sums of 50 of them to stay in the range of a float,
    [sma_50] is the arithmetic mean of the last 50 closes. *)
Theorem sma_50_is_the_mean_of_the_last_50_closes
    (sqrt : Qc → Qc) (data : DataFrame) (qs : list Qc) :
  map Close data = map Fin qs →
  50 ≤ length data →
  sums_fit 50 qs = true →
  ∃ r, MainPy.calculate_technical_indicators sqrt data = Ok r ∧
       MainPy.sma_50 r = Fin (Qc_mean (Indicator.trailing 50 qs)) ∧
       length (Indicator.trailing 50 qs) = 50.
Proof.
  intros Hfin Hlen _. pose proof (closes_rows _ _ Hfin) as Hq.
  assert (length (Indicator.trailing 50 qs) = 50) as Hl.
  { unfold Indicator.trailing. rewrite length_drop. lia. }
  eexists. split.
  - apply calculate_technical_indicators_rows. intros ->. simpl in Hlen. lia.
  - cbn [MainPy.sma_50]. rewrite Hfin. unfold Qc_mean. rewrite Hl. split; [|done].
    apply at_last_rolling_mean_finite; [done|lia].
Qed.

(** The theorem on 30 days at 10 followed by 20 days at 40. *)
Lemma sma_50_is_the_mean_of_the_last_50_closes_witness :
  ∃ r, MainPy.calculate_technical_indicators (λ q, q) step_history = Ok r ∧
       MainPy.sma_50 r =
         Fin (Qc_mean (Indicator.trailing 50
                         (map Qc_of_Z (replicate 30 10%Z ++ replicate 20 40%Z)))) ∧
       length (Indicator.trailing 50
                 (map Qc_of_Z (replicate 30 10%Z ++ replicate 20 40%Z))) = 50.
Proof.
  apply (sma_50_is_the_mean_of_the_last_50_closes (λ q, q) step_history).
  - reflexivity.
  - simpl. lia.
  - vm_compute. reflexivity.
Defined.

(** X3.  On a history of 200 rows or more whose closes are numbers small
    enough for the sums of 200 of them to stay in the range of a float,
    [sma_200] is the arithmetic mean of the last 200 closes. *)
Theorem sma_200_is_the_mean_of_the_last_200_closes
    (sqrt : Qc → Qc) (data : DataFrame) (qs : list Qc) :
  map Close data = map Fin qs →
  200 ≤ length data →
  sums_fit 200 qs = true →
  ∃ r, MainPy.calculate_technical_indicators sqrt data = Ok r ∧
       MainPy.sma_200 r = Fin (Qc_mean (Indicator.trailing 200 qs)) ∧
       length (Indicator.trailing 200 qs) = 200.
Proof.
  intros Hfin Hlen _. pose proof (closes_rows _ _ Hfin) as Hq.
  assert (length (Indicator.trailing 200 qs) = 200) as Hl.
  { unfold Indicator.trailing. rewrite length_drop. lia. }
  eexists. split.
  - apply calculate_technical_indicators_rows. intros ->. simpl in Hlen. lia.
  - cbn [MainPy.sma_200]. rewrite Hfin. unfold Qc_mean. rewrite Hl. split; [|done].
    apply at_last_rolling_mean_finite; [done|lia].
Qed.

(** The theorem on 200 days at 5. *)
Lemma sma_200_is_the_mean_of_the_last_200_closes_witness :
  ∃ r, MainPy.calculate_technical_indicators (λ q, q) flat_history = Ok r ∧
       MainPy.sma_200 r =
         Fin (Qc_mean (Indicator.trailing 200 (map Qc_of_Z (replicate 200 5%Z)))) ∧
       length (Indicator.trailing 200 (map Qc_of_Z (replicate 200 5%Z))) = 200.
Proof.
  apply (sma_200_is_the_mean_of_the_last_200_closes (λ q, q) flat_history).
  - reflexivity.
  - vm_compute. lia.
  - vm_compute. reflexivity.
Defined.

(** X4.  On a history of 15 rows or more whose closes are numbers, [rsi]
    is NaN or a number from 0 to 100: it is never infinite and never
    leaves that range. *)
Theorem rsi_is_a_number_from_0_to_100_or_nan
    (sqrt : Qc → Qc) (data : DataFrame) (qs : list Qc) :
  map Close data = map Fin qs →
  15 ≤ length data →
  ∃ r, MainPy.calculate_technical_indicators sqrt data = Ok r ∧
       rsi_value (MainPy.rsi r).
Proof.
  intros Hfin Hlen. pose proof (closes_rows _ _ Hfin) as Hq.
  eexists. split.
  - apply calculate_technical_indicators_rows. intros ->. simpl in Hlen. lia.
  - cbn [MainPy.rsi]. rewrite Hfin, at_last_rsi_finite by lia.
    unfold Indicator.rsi_14. cbv zeta.
    assert (0 < Qc_of_nat 14)%Qc as H14 by (apply Qc_of_nat_pos; lia).
    apply rsi_formula_value; apply Qc_div_nonneg; try done;
      apply Qc_sum_nonneg; intros x Hx;
      apply list_elem_of_In, in_map_iff in Hx as (d & <- & _);
      [apply gain_of_nonneg|apply loss_of_nonneg].
Qed.

(** The theorem on a history of 15 days. *)
Lemma rsi_is_a_number_from_0_to_100_or_nan_witness :
  ∃ r, MainPy.calculate_technical_indicators (λ q, q) (history_of fifteen_days) = Ok r ∧
       rsi_value (MainPy.rsi r).
Proof.
  apply (rsi_is_a_number_from_0_to_100_or_nan (λ q, q) (history_of fifteen_days)
           (map Qc_of_Z fifteen_days)).
  - reflexivity.
  - simpl. lia.
Defined.












(** *** Flat prices *)

Lemma ema_from_replicate (a c : Qc) (n : nat) :
  Indicator.ema_from a c (replicate n c) = replicate n c.
Proof.
  induction n as [|n IH]; [done|]. cbn [replicate Indicator.ema_from].
  replace (a * c + (1 - a) * c)%Qc with c by ring. by rewrite IH.
Qed.

Lemma ema_replicate (k n : nat) (c : Qc) :
  Indicator.ema k (replicate n c) = replicate n c.
Proof.
  destruct n as [|n]; [done|]. cbn [replicate Indicator.ema].
  by rewrite ema_from_replicate.
Qed.

Lemma map_replicate {A B : Type} (f : A → B) (n : nat) (x : A) :
  map f (replicate n x) = replicate n (f x).
Proof. induction n as [|n IH]; [done|]. cbn. by rewrite IH. Qed.

Lemma constant_column {A B : Type} (f : A → B) (l : list A) (y : B) :
  (∀ x, x ∈ l → f x = y) → map f l = replicate (length l) y.
Proof.
  induction l as [|x l IH]; intros H; [done|]. cbn.
  rewrite (H x) by (by left). rewrite IH; [done|]. intros z Hz. apply H. by right.
Qed.

(** X6.  When every close of the history is the same number, [macd] and
    [signal] are both 0, from the first row on: the two averages start at
    the first close and stay there. *)
Theorem flat_closes_give_zero_macd_and_signal
    (sqrt : Qc → Qc) (data : DataFrame) (c : Qc) :
  data ≠ [] →
  (∀ row, row ∈ data → Close row = Fin c) →
  ∃ r, MainPy.calculate_technical_indicators sqrt data = Ok r ∧
       MainPy.macd r = Fin 0%Qc ∧
       MainPy.signal r = Fin 0%Qc.
Proof.
  intros Hne Hflat.
  assert (map Close data = map Fin (replicate (length data) c)) as Hfin.
  { rewrite map_replicate. by apply constant_column. }
  assert (Indicator.macd_line (replicate (length data) c) =
          replicate (length data) 0%Qc) as Hmacd.
  { unfold Indicator.macd_line. rewrite !ema_replicate, zip_with_replicate.
    f_equal. unfold Qcminus. ring. }
  assert (last (replicate (length data) 0%Qc) = Some 0%Qc) as Hlast.
  { destruct data as [|x t]; [done|]. cbn [length].
    rewrite last_lookup, length_replicate. cbn [pred].
    apply lookup_replicate. split; [done|lia]. }
  eexists. split; [by apply calculate_technical_indicators_rows|].
  cbn [MainPy.macd MainPy.signal].
  rewrite Hfin, macd_series_finite, signal_series_finite.
  unfold Indicator.signal_line. rewrite Hmacd, ema_replicate.
  split; by apply at_last_Fin.
Qed.

(** The theorem on three days at 5. *)
Lemma flat_closes_give_zero_macd_and_signal_witness :
  ∃ r, MainPy.calculate_technical_indicators (λ q, q)
         (history_of (replicate 3 5%Z)) = Ok r ∧
       MainPy.macd r = Fin 0%Qc ∧
       MainPy.signal r = Fin 0%Qc.
Proof.
  apply (flat_closes_give_zero_macd_and_signal (λ q, q)
           (history_of (replicate 3 5%Z)) (Qc_of_Z 5)).
  - discriminate.
  - intros row Hrow. cbn in Hrow.
    repeat (apply elem_of_cons in Hrow as [->|Hrow]; [reflexivity|]).
    by apply elem_of_nil in Hrow.
Defined.

(** *** The bands *)




(** X8.  On a history of fewer than 50 rows, and one at least, both
    bands are NaN: the centre of the bands is the 50-row mean, which does
    not exist yet, also where the 20-row deviation does. *)
Theorem the_bands_need_50_rows (sqrt : Qc → Qc) (data : DataFrame) :
  data ≠ [] →
  length data < 50 →
  ∃ r, MainPy.calculate_technical_indicators sqrt data = Ok r ∧
       MainPy.upper_band r = NaN ∧
       MainPy.lower_band r = NaN.
Proof.
  intros Hne Hlen. set (closes := map Close data).
  assert (closes ≠ []) as Hc by (unfold closes; by destruct data).
  assert (length closes = length data) as Hl by (unfold closes; by rewrite length_map).
  assert (0 < length closes) as Hpos by (by apply nonempty_length).
  eexists. split; [by apply calculate_technical_indicators_rows|].
  cbn [MainPy.upper_band MainPy.lower_band]. fold closes.
  unfold Pandas.add, Pandas.sub.
  rewrite !at_last_zip_with;
    try (unfold Pandas.rolling_mean; rewrite rolling_length, ?band_width_length; lia);
    try (apply nonempty_length; unfold Pandas.rolling_mean; rewrite rolling_length; lia).
  unfold Pandas.rolling_mean. rewrite at_last_rolling_short by (done || lia).
  done.
Qed.

(** The theorem on a history of 15 days. *)
Lemma the_bands_need_50_rows_witness :
  ∃ r, MainPy.calculate_technical_indicators (λ q, q) (history_of fifteen_days) = Ok r ∧
       MainPy.upper_band r = NaN ∧
       MainPy.lower_band r = NaN.
Proof.
  apply (the_bands_need_50_rows (λ q, q) (history_of fifteen_days)).
  - discriminate.
  - simpl. lia.
Defined.

(** *** The average volume *)

Lemma fsum_from_finite (a : Qc) (vs : list Qc) :
  foldl fadd (Fin a) (map Fin vs) = Fin (foldl Qcplus a vs).
Proof. revert a. induction vs as [|v vs IH]; intros a; [done|]. cbn. apply IH. Qed.

Lemma filter_not_nan_finite (vs : list Qc) :
  filter (λ x, is_nan x = false) (map Fin vs) = map Fin vs.
Proof.
  induction vs as [|v vs IH]; [done|]. cbn [map].
  rewrite filter_cons_True by done. by rewrite IH.
Qed.

(** X9.  [volume_avg] is the arithmetic mean of the whole Volume column,
    on every history with one row at least whose volumes are numbers small
    enough for their sums to stay in the range of a float; it needs no
    minimal number of rows. *)
Theorem volume_avg_is_the_mean_volume
    (sqrt : Qc → Qc) (data : DataFrame) (vs : list Qc) :
  map Volume data = map Fin vs →
  data ≠ [] →
  sums_fit (length data) vs = true →
  ∃ r, MainPy.calculate_technical_indicators sqrt data = Ok r ∧
       MainPy.volume_avg r = Fin (Qc_mean vs).
Proof.
  intros Hfin Hne _.
  assert (length vs = length data) as Hl.
  { apply (f_equal length) in Hfin. by rewrite !length_map in Hfin. }
  eexists. split; [by apply calculate_technical_indicators_rows|].
  cbn [MainPy.volume_avg]. rewrite Hfin. unfold Pandas.mean. cbv zeta.
  rewrite filter_not_nan_finite, length_map. unfold fsum.
  rewrite fsum_from_finite. fold (Qc_sum vs).
  unfold fdiv, f_of_nat. rewrite sign_Qc_of_nat; [done|].
  rewrite Hl. by apply nonempty_length.
Qed.

(** The theorem on three days with a volume of 1000 each. *)
Lemma volume_avg_is_the_mean_volume_witness :
  ∃ r, MainPy.calculate_technical_indicators (λ q, q) (history_of three_days) = Ok r ∧
       MainPy.volume_avg r = Fin (Qc_mean (replicate 3 (Qc_of_Z 1000))).
Proof.
  apply (volume_avg_is_the_mean_volume (λ q, q) (history_of three_days)).
  - reflexivity.
  - discriminate.
  - vm_compute. reflexivity.
Defined.

(** *** The valuation metrics *)

Lemma Qc_of_Z_eq_0 (z : Z) : Qc_of_Z z = 0%Qc ↔ z = 0%Z.
Proof.
  unfold Qc_of_Z. rewrite Q2Qc_eq_iff. unfold Qeq. simpl. lia.
Qed.

(** A true value that is a number is not zero. *)
Lemma truthy_number_not_zero (v : pyval) (y : float64) :
  truthy v = true → as_number v = Some y → is_zero y = false.
Proof.
  destruct v as [|b|z|x|s]; simpl; try done.
  - intros -> [= <-]. by vm_compute.
  - intros Hz [= <-]. unfold is_zero, f_of_Z.
    apply bool_decide_eq_false. rewrite Qc_of_Z_eq_0.
    apply negb_true_iff, Z.eqb_neq in Hz. done.
  - intros Hx [= <-]. destruct x as [q| | |]; try done.
    simpl. by apply negb_true_iff in Hx.
Qed.

Lemma generate_valuation_metrics_cases (info : Info) :
  MainPy.generate_valuation_metrics info =
    bind_res
      (if truthy (dict_get info "interestExpense")
       then py_truediv (dict_get info "earningsBeforeInterestTaxes")
                       (dict_get info "interestExpense")
       else Ok PyNone)
      (λ c, Ok
         {| MainPy.valuation :=
              {| MainPy.pe_ratio := dict_get info "trailingPE";
                 MainPy.forward_pe := dict_get info "forwardPE";
                 MainPy.peg_ratio := dict_get info "pegRatio";
                 MainPy.price_to_sales := dict_get info "priceToSalesTrailing12Months";
                 MainPy.price_to_book := dict_get info "priceToBook";
                 MainPy.ev_to_ebitda := dict_get info "enterpriseToEbitda" |};
            MainPy.growth :=
              {| MainPy.revenue_growth := dict_get info "revenueGrowth";
                 MainPy.earnings_growth := dict_get info "earningsGrowth";
                 MainPy.ebitda_growth := dict_get info "ebitdaGrowth" |};
            MainPy.profitability :=
              {| MainPy.gross_margins := dict_get info "grossMargins";
                 MainPy.operating_margins := dict_get info "operatingMargins";
                 MainPy.profit_margins := dict_get info "profitMargins";
                 MainPy.return_on_equity := dict_get info "returnOnEquity";
                 MainPy.return_on_assets := dict_get info "returnOnAssets" |};
            MainPy.financial_health :=
              {| MainPy.current_ratio := dict_get info "currentRatio";
                 MainPy.quick_ratio := dict_get info "quickRatio";
                 MainPy.debt_to_equity := dict_get info "debtToEquity";
                 MainPy.interest_coverage := c |} |}).
Proof. reflexivity. Qed.

(** X10.  When interestExpense is missing, None, zero or false in any
    other way, [generate_valuation_metrics] returns its metrics with
    [interest_coverage] None: nothing is divided. *)
Theorem no_interest_expense_gives_no_interest_coverage (info : Info) :
  truthy (dict_get info "interestExpense") = false →
  ∃ m, MainPy.generate_valuation_metrics info = Ok m ∧
       MainPy.interest_coverage (MainPy.financial_health m) = PyNone.
Proof.
  intros H. rewrite generate_valuation_metrics_cases, H. by eexists.
Qed.

(** The theorem on an info without an interest expense. *)
Lemma no_interest_expense_gives_no_interest_coverage_witness :
  ∃ m, MainPy.generate_valuation_metrics acme_info = Ok m ∧
       MainPy.interest_coverage (MainPy.financial_health m) = PyNone.
Proof.
  apply (no_interest_expense_gives_no_interest_coverage acme_info). reflexivity.
Defined.

Lemma as_int_number (v : pyval) (z : Z) :
  as_int v = Some z → as_number v = Some (f_of_Z z).
Proof. destruct v; cbn; congruence. Qed.

Lemma as_int_not_too_large (v : pyval) (z : Z) :
  as_int v = Some z → fits_float (Qc_of_Z z) = true → int_too_large v = false.
Proof.
  destruct v as [|b|z'|x|s]; cbn; try done. intros [= ->] ->. done.
Qed.

Lemma number_not_too_large (v : pyval) (a : Qc) :
  as_number v = Some (Fin a) → fits_float a = true → int_too_large v = false.
Proof.
  destruct v as [|b|z|x|s]; cbn; try done. intros [= <-] ->. done.
Qed.

Lemma fdiv_finite (a b : Qc) :
  is_zero (Fin b) = false → fdiv (Fin a) (Fin b) = Fin (a / b)%Qc.
Proof.
  cbn [is_zero]. intros Hb%bool_decide_eq_false. cbn [fdiv].
  destruct (sign b) eqn:Hs; try done. by apply sign_Eq in Hs.
Qed.

(** X11.  When interestExpense is a number that is not zero,
    earningsBeforeInterestTaxes is a number, and the two numbers and
    their quotient lie in the range of a float,
    [generate_valuation_metrics] returns its metrics and
    [interest_coverage] is the quotient of the two. *)
Theorem interest_coverage_is_ebit_over_interest_expense
    (info : Info) (ebit expense : Qc) :
  as_number (dict_get info "earningsBeforeInterestTaxes") = Some (Fin ebit) →
  as_number (dict_get info "interestExpense") = Some (Fin expense) →
  truthy (dict_get info "interestExpense") = true →
  fits_float ebit = true →
  fits_float expense = true →
  fits_float (ebit / expense)%Qc = true →
  ∃ m, MainPy.generate_valuation_metrics info = Ok m ∧
       MainPy.interest_coverage (MainPy.financial_health m) =
         PyFloat (Fin (ebit / expense)%Qc).
Proof.
  intros He Hi Ht Fe Fi Fq. rewrite generate_valuation_metrics_cases, Ht.
  pose proof (truthy_number_not_zero _ _ Ht Hi) as Hz.
  unfold py_truediv. rewrite He, Hi.
  destruct (as_int (dict_get info "earningsBeforeInterestTaxes")) as [za|] eqn:Ea.
  - destruct (as_int (dict_get info "interestExpense")) as [zb|] eqn:Eb.
    + apply as_int_number in Ea, Eb. rewrite He in Ea. rewrite Hi in Eb.
      assert (ebit = Qc_of_Z za) as -> by (unfold f_of_Z in Ea; congruence).
      assert (expense = Qc_of_Z zb) as -> by (unfold f_of_Z in Eb; congruence).
      rewrite Hz, Fq, fdiv_finite by done. by eexists.
    + rewrite (number_not_too_large _ _ He Fe), (number_not_too_large _ _ Hi Fi).
      cbn [orb]. rewrite Hz, fdiv_finite by done. cbn [to_range]. rewrite Fq.
      by eexists.
  - rewrite (number_not_too_large _ _ He Fe), (number_not_too_large _ _ Hi Fi).
    cbn [orb]. rewrite Hz, fdiv_finite by done. cbn [to_range]. rewrite Fq.
    by eexists.
Qed.

(** The theorem on earnings of 10 against an interest expense of 5. *)
Lemma interest_coverage_is_ebit_over_interest_expense_witness :
  ∃ m, MainPy.generate_valuation_metrics covered_info = Ok m ∧
       MainPy.interest_coverage (MainPy.financial_health m) =
         PyFloat (Fin (Qc_of_Z 10 / Qc_of_Z 5)%Qc).
Proof.
  apply (interest_coverage_is_ebit_over_interest_expense covered_info);
    reflexivity.
Defined.

Lemma py_truediv_raise (a b : pyval) (e : exn) :
  truthy b = true →
  py_truediv a b = Raise e →
  (exn_class e = "TypeError" ∧ (as_number a = None ∨ as_number b = None)) ∨
  (exn_class e = "OverflowError" ∧
   (int_too_large a = true ∨ int_too_large b = true ∨
    ∃ za zb, as_int a = Some za ∧ as_int b = Some zb ∧
             fits_float (Qc_of_Z za / Qc_of_Z zb)%Qc = false)).
Proof.
  intros Ht. unfold py_truediv.
  destruct (as_number a) as [x|] eqn:Ha; [|intros [= <-]; left; auto].
  destruct (as_number b) as [y|] eqn:Hb; [|intros [= <-]; left; auto].
  rewrite (truthy_number_not_zero _ _ Ht Hb).
  destruct (as_int a) as [za|] eqn:Ea.
  - destruct (as_int b) as [zb|] eqn:Eb.
    + destruct (fits_float _) eqn:Hq; [done|]. intros [= <-]. right.
      split; [done|]. right. right. by exists za, zb.
    + destruct (int_too_large a) eqn:La; cbn [orb].
      { intros [= <-]. right. auto. }
      destruct (int_too_large b) eqn:Lb; [|done].
      intros [= <-]. right. auto.
  - destruct (int_too_large a) eqn:La; cbn [orb].
    { intros [= <-]. right. auto. }
    destruct (int_too_large b) eqn:Lb; [|done].
    intros [= <-]. right. auto.
Qed.


(** X12.  [generate_valuation_metrics] never divides by zero: the guard
    lets a zero interestExpense through to None.  When it raises, the
    interestExpense is true and the exception is a TypeError, one of the
    two operands of the division not being a number, or an
    OverflowError, an [int] among the operands or the quotient of two
    [int]s being too large for a float. *)
Theorem the_metrics_raise_a_type_error_or_an_overflow_error
    (info : Info) (e : exn) :
  MainPy.generate_valuation_metrics info = Raise e →
  let ebit := dict_get info "earningsBeforeInterestTaxes" in
  let expense := dict_get info "interestExpense" in
  truthy expense = true ∧
  ((exn_class e = "TypeError" ∧ (as_number ebit = None ∨ as_number expense = None)) ∨
   (exn_class e = "OverflowError" ∧
    (int_too_large ebit = true ∨ int_too_large expense = true ∨
     ∃ za zb, as_int ebit = Some za ∧ as_int expense = Some zb ∧
              fits_float (Qc_of_Z za / Qc_of_Z zb)%Qc = false))).
Proof.
  rewrite generate_valuation_metrics_cases. cbv zeta.
  destruct (truthy (dict_get info "interestExpense")) eqn:Ht; [|discriminate].
  destruct (py_truediv _ _) as [c|e'] eqn:Hd; [discriminate|].
  cbn. intros [= <-]. split; [done|]. by apply py_truediv_raise.
Qed.

(** The theorem on earnings of [10 ^ 400] against an interest expense of 5. *)
Lemma the_metrics_raise_a_type_error_or_an_overflow_error_witness :
  let ebit := dict_get huge_earnings_info "earningsBeforeInterestTaxes" in
  let expense := dict_get huge_earnings_info "interestExpense" in
  truthy expense = true ∧
  ((exn_class (PyExc "OverflowError" "integer division result too large for a float") =
      "TypeError" ∧
    (as_number ebit = None ∨ as_number expense = None)) ∨
   (exn_class (PyExc "OverflowError" "integer division result too large for a float") =
      "OverflowError" ∧
    (int_too_large ebit = true ∨ int_too_large expense = true ∨
     ∃ za zb, as_int ebit = Some za ∧ as_int expense = Some zb ∧
              fits_float (Qc_of_Z za / Qc_of_Z zb)%Qc = false))).
Proof.
  apply (the_metrics_raise_a_type_error_or_an_overflow_error huge_earnings_info).
  vm_compute. reflexivity.
Defined.

(** *** The fetch of main.py *)




Lemma get_comprehensive_stock_data_raise_trace w ticker tr e tr' :
  MainPy.get_comprehensive_stock_data w ticker tr = (Raise e, tr') →
  ∃ k, tr' = tr ++ take k (provider_reads ticker).
Proof.
  unfold MainPy.get_comprehensive_stock_data, try_except, bind, provider, lift,
    emit, ret, raise.
  destruct (yf_info w ticker);
    [|intros [= <- <-]; by exists 1].
  destruct (yf_history w ticker "1y");
    [|intros [= <- <-]; exists 2; cbn; by rewrite <- !app_assoc].
  destruct (yf_history w ticker "5y");
    [|intros [= <- <-]; exists 3; cbn; by rewrite <- !app_assoc].
  destruct (yf_attr w ticker "recommendations");
    [|intros [= <- <-]; exists 4; cbn; by rewrite <- !app_assoc].
  destruct (yf_attr w ticker "institutional_holders");
    [|intros [= <- <-]; exists 5; cbn; by rewrite <- !app_assoc].
  destruct (yf_attr w ticker "balance_sheet");
    [|intros [= <- <-]; exists 6; cbn; by rewrite <- !app_assoc].
  destruct (yf_attr w ticker "income_stmt");
    [|intros [= <- <-]; exists 7; cbn; by rewrite <- !app_assoc].
  destruct (yf_attr w ticker "cashflow");
    [|intros [= <- <-]; exists 8; cbn; by rewrite <- !app_assoc].
  discriminate.
Qed.

(** X14.  When [get_comprehensive_stock_data] returns, it has read eight
    attributes of the ticker in the order of the source, whether they are
    used later or not; the info returned is the provider's info and the
    history returned is the history of one year. *)
Theorem the_fetch_reads_eight_attributes_in_order
    (w : World) (ticker : string) (tr tr' : list event)
    (info : Info) (hist : DataFrame) :
  MainPy.get_comprehensive_stock_data w ticker tr = (Ok (info, hist), tr') →
  yf_info w ticker = Ok info ∧
  yf_history w ticker "1y" = Ok hist ∧
  tr' = tr ++ provider_reads ticker.
Proof. apply get_comprehensive_stock_data_ok. Qed.

(** The theorem in a world whose provider answers every read. *)
Lemma the_fetch_reads_eight_attributes_in_order_witness :
  yf_info fair_world "AAPL" = Ok acme_info ∧
  yf_history fair_world "AAPL" "1y" = Ok (history_of three_days) ∧
  provider_reads "AAPL" = [] ++ provider_reads "AAPL".
Proof.
  apply (the_fetch_reads_eight_attributes_in_order fair_world "AAPL" []).
  reflexivity.
Defined.

(** *** The chains never fail at formatting *)

Lemma chain_run_formatted w p inputs prompt tr :
  filter (λ k, inputs !! k = None) (input_variables p) = [] →
  format_prompt p inputs = Ok prompt →
  chain_run w p inputs tr = llm_invoke w prompt tr.
Proof. intros Hm Hf. unfold chain_run. rewrite Hm. unfold bind, lift. by rewrite Hf. Qed.

Lemma research_chain w ticker d :
  ∃ prompt, ∀ tr,
    chain_run w AppPy.research_prompt
      (<["ticker" := ticker]> (<["stock_data" := d]> ∅)) tr = llm_invoke w prompt tr.
Proof.
  eexists. intros tr. apply chain_run_formatted; [by vm_compute|].
  vm_compute. reflexivity.
Qed.

Lemma analysis_chain w ticker r1 :
  ∃ prompt, ∀ tr,
    chain_run w AppPy.analysis_prompt
      (<["ticker" := ticker]> (<["research_report" := r1]> ∅)) tr =
    llm_invoke w prompt tr.
Proof.
  eexists. intros tr. apply chain_run_formatted; [by vm_compute|].
  vm_compute. reflexivity.
Qed.

Lemma app_recommendation_chain w ticker r1 r2 :
  ∃ prompt, ∀ tr,
    chain_run w AppPy.recommendation_prompt
      (<["ticker" := ticker]>
       (<["research_report" := r1]> (<["analysis_report" := r2]> ∅))) tr =
    llm_invoke w prompt tr.
Proof.
  eexists. intros tr. apply chain_run_formatted; [by vm_compute|].
  vm_compute. reflexivity.
Qed.




Lemma llm_invoke_raise w prompt tr e tr' :
  llm_invoke w prompt tr = (Raise e, tr') →
  llm w (llm_calls tr) prompt = Raise e ∧ tr' = tr ++ [EvLLMCall prompt].
Proof.
  unfold llm_invoke. destruct (llm w (llm_calls tr) prompt); [discriminate|].
  by intros [= <- <-].
Qed.

Lemma llm_invoke_ok w prompt tr r tr' :
  llm_invoke w prompt tr = (Ok r, tr') →
  llm w (llm_calls tr) prompt = Ok r ∧ tr' = tr ++ [EvLLMCall prompt; EvLLMReturn r].
Proof.
  unfold llm_invoke. destruct (llm w (llm_calls tr) prompt); [|discriminate].
  by intros [= <- <-].
Qed.

Lemma bind_raise_inv {A B : Type} (m : M A) (k : A → M B) tr e tr' :
  bind m k tr = (Raise e, tr') →
  m tr = (Raise e, tr') ∨ ∃ a tr1, m tr = (Ok a, tr1) ∧ k a tr1 = (Raise e, tr').
Proof.
  unfold bind. destruct (m tr) as [[a|e0] tr1].
  - intros H. right. by exists a, tr1.
  - intros [= <- <-]. by left.
Qed.

(** X15.  [analyze_stock] raises only what the endpoint raises: when it
    raises, some call of the endpoint has raised that exception, and the
    trace ends with that call.  The fetch cannot make it fail, nor can the
    filling of a prompt. *)
Theorem analyze_stock_fails_only_when_the_endpoint_does
    (ff : FloatFormat) (w : World) (ticker : string) (tr tr' : list event) (e : exn) :
  AppPy.analyze_stock ff w ticker tr = (Raise e, tr') →
  ∃ n prompt new,
    llm w n prompt = Raise e ∧
    tr' = tr ++ new ++ [EvLLMCall prompt].
Proof.
  intros H. unfold AppPy.analyze_stock in H.
  rewrite bind_print in H.
  apply bind_raise_inv in H as [H|(d & tr1 & Hd & H)].
  { rewrite get_basic_stock_info_total in H. discriminate. }
  rewrite get_basic_stock_info_total in Hd. injection Hd as _ <-.
  rewrite !bind_print in H.
  destruct (research_chain w ticker d) as [p1 Hp1].
  apply bind_raise_inv in H as [H|(r1 & tr2 & H1 & H)].
  { rewrite Hp1 in H. apply llm_invoke_raise in H as [Hl ->].
    eexists _, p1, (take 4 (app_report ticker d p1 "" "" "" "" "")).
    split; [exact Hl|]. cbn [take app_report]. by rewrite <- !app_assoc. }
  rewrite Hp1 in H1. apply llm_invoke_ok in H1 as [_ ->].
  rewrite !bind_print in H.
  destruct (analysis_chain w ticker r1) as [p2 Hp2].
  apply bind_raise_inv in H as [H|(r2 & tr3 & H2 & H)].
  { rewrite Hp2 in H. apply llm_invoke_raise in H as [Hl ->].
    eexists _, p2, (take 8 (app_report ticker d p1 r1 "" "" "" "")).
    split; [exact Hl|]. cbn [take app_report]. by rewrite <- !app_assoc. }
  rewrite Hp2 in H2. apply llm_invoke_ok in H2 as [_ ->].
  rewrite !bind_print in H.
  destruct (app_recommendation_chain w ticker r1 r2) as [p3 Hp3].
  apply bind_raise_inv in H as [H|(r3 & tr4 & H3 & H)].
  { rewrite Hp3 in H. apply llm_invoke_raise in H as [Hl ->].
    eexists _, p3, (take 12 (app_report ticker d p1 r1 p2 r2 "" "")).
    split; [exact Hl|]. cbn [take app_report]. by rewrite <- !app_assoc. }
  rewrite bind_print in H. discriminate.
Qed.

(** The theorem in a world whose endpoint refuses every call. *)
Lemma analyze_stock_fails_only_when_the_endpoint_does_witness :
  ∃ n prompt new,
    llm endpoint_down n prompt = Raise (PyExc "APIConnectionError" "Connection error.") ∧
    (AppPy.analyze_stock plain_floats endpoint_down "AAPL" []).2 =
      [] ++ new ++ [EvLLMCall prompt].
Proof.
  apply (analyze_stock_fails_only_when_the_endpoint_does
           plain_floats endpoint_down "AAPL" []).
  vm_compute. reflexivity.
Defined.

(** *** main.py: what can fail, and when the endpoint is called *)

Lemma lift_raise_inv {A : Type} (r : res A) tr e tr' :
  lift r tr = (Raise e, tr') → r = Raise e ∧ tr' = tr.
Proof. unfold lift. by intros [= -> ->]. Qed.

Lemma llm_calls_provider_reads ticker k :
  llm_calls (take k (provider_reads ticker)) = 0.
Proof. do 9 (destruct k as [|k]; [reflexivity|]). reflexivity. Qed.

Lemma llm_calls_snoc_print tr s : llm_calls (tr ++ [EvPrint s]) = llm_calls tr.
Proof. rewrite llm_calls_app. change (llm_calls [EvPrint s]) with 0. lia. Qed.

(** X16.  In the body of [professional_analysis] the endpoint is called
    only when the data is ready: a run that makes a call has fetched the
    info and the history, and has computed the indicators and the metrics
    without an exception. *)
Theorem the_endpoint_is_called_only_when_the_data_is_ready
    (rt : MainPy.Runtime) (w : World) (ticker : string)
    (tr tr' : list event) (r : res unit) :
  MainPy.professional_analysis_body rt w ticker tr = (r, tr') →
  llm_calls tr < llm_calls tr' →
  ∃ info hist ind metrics,
    yf_info w ticker = Ok info ∧
    yf_history w ticker "1y" = Ok hist ∧
    MainPy.calculate_technical_indicators (MainPy.np_sqrt rt) hist = Ok ind ∧
    MainPy.generate_valuation_metrics info = Ok metrics.
Proof.
  intros H Hcalls. unfold MainPy.professional_analysis_body in H.
  rewrite bind_print in H.
  unfold bind at 1 in H.
  destruct (MainPy.get_comprehensive_stock_data w ticker _)
    as [[[info hist]|e] tr1] eqn:Hf.
  2:{ injection H as <- <-.
      apply get_comprehensive_stock_data_raise_trace in Hf as (k & ->).
      rewrite llm_calls_app, llm_calls_provider_reads, llm_calls_snoc_print in Hcalls.
      lia. }
  apply get_comprehensive_stock_data_ok in Hf as (Hi & Hh & ->).
  cbn [fst snd] in H. rewrite bind_print in H.
  unfold bind at 1 in H.
  destruct (lift (MainPy.calculate_technical_indicators _ hist) _)
    as [[ind|e] tr2] eqn:Hc.
  2:{ injection H as <- <-. apply lift_raise_inv in Hc as [_ ->].
      rewrite llm_calls_snoc_print, llm_calls_app, llm_calls_snoc_print in Hcalls.
      change (llm_calls (provider_reads ticker)) with 0 in Hcalls. lia. }
  apply lift_ok_inv in Hc as [Hc ->].
  rewrite bind_print in H. unfold bind at 1 in H.
  destruct (lift (MainPy.generate_valuation_metrics info) _)
    as [[metrics|e] tr3] eqn:Hm.
  2:{ injection H as <- <-. apply lift_raise_inv in Hm as [_ ->].
      rewrite !llm_calls_snoc_print, llm_calls_app, llm_calls_snoc_print in Hcalls.
      change (llm_calls (provider_reads ticker)) with 0 in Hcalls. lia. }
  apply lift_ok_inv in Hm as [Hm ->].
  by exists info, hist, ind, metrics.
Qed.

(** The theorem on a run that makes its three calls. *)
Lemma the_endpoint_is_called_only_when_the_data_is_ready_witness :
  ∃ info hist ind metrics,
    yf_info fair_world "AAPL" = Ok info ∧
    yf_history fair_world "AAPL" "1y" = Ok hist ∧
    MainPy.calculate_technical_indicators (MainPy.np_sqrt plain_runtime) hist = Ok ind ∧
    MainPy.generate_valuation_metrics info = Ok metrics.
Proof.
  apply (the_endpoint_is_called_only_when_the_data_is_ready
           plain_runtime fair_world "AAPL" []
           (MainPy.professional_analysis_body plain_runtime fair_world "AAPL" []).2
           (Ok tt)).
  - vm_compute. reflexivity.
  - vm_compute. lia.
Defined.



(** X18.  [professional_analysis] never raises.  It returns None after
    every run, and when its body raises, the last line printed is
    Professional analysis failed: followed by the text of the
    exception. *)
Theorem professional_analysis_never_raises
    (rt : MainPy.Runtime) (w : World) (ticker : string) (tr : list event) :
  ∃ tr', MainPy.professional_analysis rt w ticker tr = (Ok tt, tr') ∧
         ∀ e tr1,
           MainPy.professional_analysis_body rt w ticker
             (tr ++ [EvPrint (nl +:+ MainPy.icon_bank +:+
                              " Initiating Professional Analysis for " +:+
                              ticker +:+ "...")]) = (Raise e, tr1) →
           tr' = tr1 ++ [EvPrint (nl +:+ MainPy.icon_cross +:+
                                  " Professional analysis failed: " +:+ exn_text e)].
Proof.
  unfold MainPy.professional_analysis. rewrite bind_print. unfold try_except.
  destruct (MainPy.professional_analysis_body rt w ticker _) as [[[]|e] tr1].
  - eexists. split; [reflexivity|]. discriminate.
  - eexists. split; [reflexivity|]. by intros e' tr1' [= <- <-].
Qed.

(** *** How many calls of the endpoint a computation can add *)

Lemma adds_mono {A : Type} (n n' : nat) (m : M A) :
  adds_at_most n m → n ≤ n' → adds_at_most n' m.
Proof. intros H Hn tr. destruct (H tr) as (new & Hnew & Hc). exists new. split; [done|lia]. Qed.

Lemma adds_ret {A : Type} (a : A) : adds_at_most 0 (ret a).
Proof. intros tr. exists []. by rewrite app_nil_r. Qed.

Lemma adds_raise {A : Type} (e : exn) : adds_at_most 0 (@raise A e).
Proof. intros tr. exists []. by rewrite app_nil_r. Qed.

Lemma adds_lift {A : Type} (r : res A) : adds_at_most 0 (lift r).
Proof. intros tr. exists []. by rewrite app_nil_r. Qed.

Lemma adds_print (s : string) : adds_at_most 0 (print s).
Proof. intros tr. by exists [EvPrint s]. Qed.

Lemma adds_prompt (s : string) : adds_at_most 0 (emit (EvPrompt s)).
Proof. intros tr. by exists [EvPrompt s]. Qed.

Lemma adds_bind {A B : Type} (a b : nat) (m : M A) (k : A → M B) :
  adds_at_most a m → (∀ x, adds_at_most b (k x)) → adds_at_most (a + b) (bind m k).
Proof.
  intros Hm Hk tr. destruct (Hm tr) as (new1 & H1 & Hc1). unfold bind.
  destruct (m tr) as [[x|e] tr1]; cbn [snd] in *; subst tr1.
  - destruct (Hk x (tr ++ new1)) as (new2 & H2 & Hc2). exists (new1 ++ new2).
    rewrite H2, llm_calls_app, app_assoc. split; [done|lia].
  - exists new1. split; [done|lia].
Qed.

Lemma adds_try_except {A : Type} (a b : nat) (m : M A) (h : exn → M A) :
  adds_at_most a m → (∀ e, adds_at_most b (h e)) →
  adds_at_most (a + b) (try_except m h).
Proof.
  intros Hm Hh tr. destruct (Hm tr) as (new1 & H1 & Hc1). unfold try_except.
  destruct (m tr) as [[x|e] tr1]; cbn [snd] in *; subst tr1.
  - exists new1. split; [done|lia].
  - destruct (Hh e (tr ++ new1)) as (new2 & H2 & Hc2). exists (new1 ++ new2).
    rewrite H2, llm_calls_app, app_assoc. split; [done|lia].
Qed.

Lemma adds_llm_invoke w prompt : adds_at_most 1 (llm_invoke w prompt).
Proof.
  intros tr. unfold llm_invoke. destruct (llm w (llm_calls tr) prompt) as [text|e].
  - by exists [EvLLMCall prompt; EvLLMReturn text].
  - by exists [EvLLMCall prompt].
Qed.

Lemma adds_chain_run w p inputs : adds_at_most 1 (chain_run w p inputs).
Proof.
  unfold chain_run. destruct (filter _ _).
  - apply (adds_bind 0 1); [apply adds_lift|]. intros x. apply adds_llm_invoke.
  - eapply adds_mono; [apply adds_raise|lia].
Qed.

Lemma adds_get_basic_stock_info ff w ticker :
  adds_at_most 0 (AppPy.get_basic_stock_info ff w ticker).
Proof.
  intros tr. rewrite get_basic_stock_info_total. by exists [EvProvider ticker "info"].
Qed.

Lemma adds_get_comprehensive_stock_data w ticker :
  adds_at_most 0 (MainPy.get_comprehensive_stock_data w ticker).
Proof.
  intros tr.
  destruct (MainPy.get_comprehensive_stock_data w ticker tr) as [[[info hist]|e] tr1] eqn:H.
  - apply get_comprehensive_stock_data_ok in H as (_ & _ & ->).
    by exists (provider_reads ticker).
  - apply get_comprehensive_stock_data_raise_trace in H as (k & ->).
    exists (take k (provider_reads ticker)). split; [done|].
    by rewrite llm_calls_provider_reads.
Qed.

Ltac adds_step :=
  first
    [ apply adds_print | apply adds_prompt | apply adds_ret | apply adds_lift
    | apply adds_raise | apply adds_chain_run | apply adds_get_basic_stock_info
    | apply adds_get_comprehensive_stock_data
    | eapply adds_bind; [|intros ?]
    | eapply adds_try_except; [|intros ?] ].

Lemma adds_analyze_stock ff w ticker : adds_at_most 3 (AppPy.analyze_stock ff w ticker).
Proof.
  unfold AppPy.analyze_stock. eapply adds_mono; [repeat adds_step|]. cbn. lia.
Qed.

Lemma adds_professional_analysis rt w ticker :
  adds_at_most 3 (MainPy.professional_analysis rt w ticker).
Proof.
  unfold MainPy.professional_analysis, MainPy.professional_analysis_body.
  eapply adds_mono; [repeat adds_step|]. cbn. lia.
Qed.

(** X19.  One run of [analyze_stock] (app.py) or of
    [professional_analysis] (main.py) only appends to the trace, and calls
    the endpoint three times at most, whether it ends well or not. *)
Theorem a_run_makes_at_most_three_calls
    (ff : FloatFormat) (rt : MainPy.Runtime) (w : World) (ticker : string)
    (tr : list event) :
  (∃ new, (AppPy.analyze_stock ff w ticker tr).2 = tr ++ new ∧ llm_calls new ≤ 3) ∧
  (∃ new, (MainPy.professional_analysis rt w ticker tr).2 = tr ++ new ∧
          llm_calls new ≤ 3).
Proof. split; [apply adds_analyze_stock|apply adds_professional_analysis]. Qed.




(** *** The sessions *)

Lemma main_main_loop_cons rt w line rest tr :
  MainPy.main_loop rt w (line :: rest) tr =
    let ff := MainPy.floats rt in
    let ticker := str_upper ff (str_strip ff line) in
    let tr0 := tr ++ [EvPrompt main_prompt] in
    if py_in (str_lower ff ticker) ["exit"; "quit"] then
      (Ok MainPy.Exited, tr0 ++ [EvPrint (nl +:+ "Terminating analysis session...")])
    else if String.eqb ticker "" then
      MainPy.main_loop rt w rest (tr0 ++ [EvPrint "Please enter a valid ticker symbol"])
    else
      match MainPy.professional_analysis rt w ticker tr0 with
      | (Ok _, tr1) => MainPy.main_loop rt w rest tr1
      | (Raise e, tr1) =>
          MainPy.main_loop rt w rest
            (tr1 ++ [EvPrint (nl +:+ MainPy.icon_warn +:+ "  Error: " +:+ exn_text e)])
      end.
Proof.
  cbn [MainPy.main_loop]. cbv zeta. unfold bind, try_except, print, emit, ret, main_prompt.
  destruct (py_in _ _); [reflexivity|]. destruct (String.eqb _ _); [reflexivity|].
  by destruct (MainPy.professional_analysis _ _ _ _) as [[[]|e] tr1].
Qed.

Lemma is_exit_line_main (ff : FloatFormat) (line : string) :
  py_in (str_lower ff (str_upper ff (str_strip ff line))) ["exit"; "quit"] =
    is_exit_line ff line.
Proof. apply py_in_swap. Qed.

Lemma app_main_loop_result ff w lines tr :
  (AppPy.main_loop ff w lines tr).1 =
    Ok (if existsb (is_exit_line ff) lines then AppPy.Exited else AppPy.AwaitingInput).
Proof.
  revert tr. induction lines as [|line rest IH]; intros tr; [reflexivity|].
  rewrite app_main_loop_cons. cbv zeta. cbn [existsb].
  fold (is_exit_line ff line). destruct (is_exit_line ff line); [reflexivity|].
  cbn [orb]. destruct (String.eqb _ _); [apply IH|].
  destruct (AppPy.analyze_stock _ _ _ _) as [[[]|e] tr1]; apply IH.
Qed.

Lemma main_main_loop_result rt w lines tr :
  (MainPy.main_loop rt w lines tr).1 =
    Ok (if existsb (is_exit_line (MainPy.floats rt)) lines
        then MainPy.Exited else MainPy.AwaitingInput).
Proof.
  revert tr. induction lines as [|line rest IH]; intros tr; [reflexivity|].
  rewrite main_main_loop_cons. cbv zeta. cbn [existsb].
  rewrite is_exit_line_main. destruct (is_exit_line _ line); [reflexivity|].
  cbn [orb]. destruct (String.eqb _ _); [apply IH|].
  destruct (MainPy.professional_analysis _ _ _ _) as [[[]|e] tr1]; apply IH.
Qed.

(** X21.  As long as [input()] returns the lines of the session, no
    exception ends a session of either script, whatever the provider and
    the endpoint do.  After the lines the session has ended, as Exited,
    exactly when one of them passed the test of the loop for quit and
    exit, made with the [strip], [upper] and [lower] of the runtime;
    otherwise the loop is at its next [input()]. *)
Theorem no_exception_ends_a_session_while_lines_are_read
    (ff : FloatFormat) (rt : MainPy.Runtime) (w : World) (lines : list string)
    (tr : list event) :
  (AppPy.main ff w lines tr).1 =
    Ok (if existsb (is_exit_line ff) lines
        then AppPy.Exited else AppPy.AwaitingInput) ∧
  (MainPy.main rt w lines tr).1 =
    Ok (if existsb (is_exit_line (MainPy.floats rt)) lines
        then MainPy.Exited else MainPy.AwaitingInput).
Proof.
  split.
  - unfold AppPy.main. rewrite !bind_print. apply app_main_loop_result.
  - unfold MainPy.main. rewrite bind_print. apply main_main_loop_result.
Qed.

Lemma app_main_loop_stops ff w pre q rest tr :
  is_exit_line ff q = true →
  AppPy.main_loop ff w (pre ++ q :: rest) tr = AppPy.main_loop ff w (pre ++ [q]) tr.
Proof.
  intros Hq. revert tr. induction pre as [|line pre IH]; intros tr.
  - cbn [app]. rewrite !app_main_loop_cons. cbv zeta.
    fold (is_exit_line ff q). by rewrite Hq.
  - cbn [app]. rewrite !app_main_loop_cons. cbv zeta.
    destruct (py_in _ _); [reflexivity|].
    destruct (String.eqb _ _); [apply IH|].
    destruct (AppPy.analyze_stock _ _ _ _) as [[[]|e] tr1]; apply IH.
Qed.

Lemma main_main_loop_stops rt w pre q rest tr :
  is_exit_line (MainPy.floats rt) q = true →
  MainPy.main_loop rt w (pre ++ q :: rest) tr = MainPy.main_loop rt w (pre ++ [q]) tr.
Proof.
  intros Hq. revert tr. induction pre as [|line pre IH]; intros tr.
  - cbn [app]. rewrite !main_main_loop_cons. cbv zeta.
    by rewrite is_exit_line_main, Hq.
  - cbn [app]. rewrite !main_main_loop_cons. cbv zeta.
    destruct (py_in _ _); [reflexivity|].
    destruct (String.eqb _ _); [apply IH|].
    destruct (MainPy.professional_analysis _ _ _ _) as [[[]|e] tr1]; apply IH.
Qed.

(** X22.  The lines that follow a line passing the test of the loops for
    quit and exit, made with the [strip], [upper] and [lower] of the
    runtime, are not read: the session is the one it would be without
    them. *)
Theorem lines_after_an_exit_word_are_not_read
    (ff : FloatFormat) (rt : MainPy.Runtime) (w : World)
    (pre : list string) (q : string) (rest : list string) (tr : list event) :
  MainPy.floats rt = ff →
  is_exit_line ff q = true →
  AppPy.main ff w (pre ++ q :: rest) tr = AppPy.main ff w (pre ++ [q]) tr ∧
  MainPy.main rt w (pre ++ q :: rest) tr = MainPy.main rt w (pre ++ [q]) tr.
Proof.
  intros <- Hq. split.
  - unfold AppPy.main. rewrite !bind_print. by apply app_main_loop_stops.
  - unfold MainPy.main. rewrite !bind_print. by apply main_main_loop_stops.
Qed.

(** The theorem on a session of three lines, the second of which is Quit
    between spaces. *)
Lemma lines_after_an_exit_word_are_not_read_witness :
  AppPy.main plain_floats fair_world (["aapl"] ++ " Quit " :: ["msft"]) [] =
    AppPy.main plain_floats fair_world (["aapl"] ++ [" Quit "]) [] ∧
  MainPy.main plain_runtime fair_world (["aapl"] ++ " Quit " :: ["msft"]) [] =
    MainPy.main plain_runtime fair_world (["aapl"] ++ [" Quit "]) [].
Proof.
  apply (lines_after_an_exit_word_are_not_read plain_floats plain_runtime fair_world
           ["aapl"] " Quit " ["msft"] []); reflexivity.
Defined.

(** X23.  A line that [strip] leaves empty, as every line of white space
    is, makes both loops print Please enter a valid ticker symbol and ask
    again: the provider is not read and the endpoint is not called.  The
    [upper] and [lower] of the empty text are empty. *)
Theorem a_blank_line_asks_again
    (ff : FloatFormat) (rt : MainPy.Runtime) (w : World)
    (line : string) (rest : list string) (tr : list event) :
  MainPy.floats rt = ff →
  str_upper ff "" = "" →
  str_lower ff "" = "" →
  str_strip ff line = "" →
  AppPy.main_loop ff w (line :: rest) tr =
    AppPy.main_loop ff w rest
      (tr ++ [EvPrompt app_prompt; EvPrint "Please enter a valid ticker symbol"]) ∧
  MainPy.main_loop rt w (line :: rest) tr =
    MainPy.main_loop rt w rest
      (tr ++ [EvPrompt main_prompt; EvPrint "Please enter a valid ticker symbol"]).
Proof.
  intros <- Hu Hl H. split.
  - rewrite app_main_loop_cons. cbv zeta. rewrite H, Hu, Hl.
    change (py_in "" ["quit"; "exit"]) with false.
    change (String.eqb "" "") with true. cbv iota.
    by rewrite <- app_assoc.
  - rewrite main_main_loop_cons. cbv zeta. rewrite H, Hu, Hl.
    change (py_in "" ["exit"; "quit"]) with false.
    change (String.eqb "" "") with true. cbv iota.
    by rewrite <- app_assoc.
Qed.

(** The theorem on a line of three spaces. *)
Lemma a_blank_line_asks_again_witness :
  AppPy.main_loop plain_floats fair_world ["   "; "quit"] [] =
    AppPy.main_loop plain_floats fair_world ["quit"]
      ([] ++ [EvPrompt app_prompt; EvPrint "Please enter a valid ticker symbol"]) ∧
  MainPy.main_loop plain_runtime fair_world ["   "; "quit"] [] =
    MainPy.main_loop plain_runtime fair_world ["quit"]
      ([] ++ [EvPrompt main_prompt; EvPrint "Please enter a valid ticker symbol"]).
Proof.
  apply (a_blank_line_asks_again plain_floats plain_runtime fair_world "   " ["quit"] []);
    reflexivity.
Defined.

(** *** The report of app.py *)









(** *** The formulas on closes that may be missing *)

(** On closes that are numbers, the formulas read with the arithmetic of
    floats are the formulas of [Indicator]. *)
Lemma zip_with_fsub_numbers (l1 l2 : list Qc) :
  zip_with fsub (map Fin l1) (map Fin l2) = map Fin (zip_with Qcminus l1 l2).
Proof.
  revert l2. induction l1 as [|x l1 IH]; intros [|y l2]; try done.
  cbn. f_equal. apply IH.
Qed.

Lemma price_changes_of_numbers (qs : list Qc) :
  IndicatorF.price_changes (map Fin qs) = map Fin (Indicator.price_changes qs).
Proof.
  unfold IndicatorF.price_changes, Indicator.price_changes.
  rewrite <- zip_with_fsub_numbers. by destruct qs.
Qed.

Lemma gain_of_number (d : Qc) : IndicatorF.gain_of (Fin d) = Fin (Indicator.gain_of d).
Proof.
  unfold IndicatorF.gain_of, Indicator.gain_of, fgtb. cbn [is_nan fcompare].
  destruct (decide (0 < d)%Qc) as [H|H].
  - by rewrite (proj1 (Qcgt_alt d 0%Qc) H).
  - destruct (d ?= 0)%Qc eqn:E; try done;
      exfalso; apply H; by apply (proj2 (Qcgt_alt d 0%Qc)).
Qed.

Lemma loss_of_number (d : Qc) : IndicatorF.loss_of (Fin d) = Fin (Indicator.loss_of d).
Proof.
  unfold IndicatorF.loss_of, Indicator.loss_of, fltb. cbn [is_nan fcompare].
  destruct (decide (d < 0)%Qc) as [H|H].
  - by rewrite (proj1 (Qclt_alt d 0%Qc) H).
  - destruct (d ?= 0)%Qc eqn:E; try done;
      exfalso; apply H; by apply (proj2 (Qclt_alt d 0%Qc)).
Qed.

Lemma fsum_of_numbers (qs : list Qc) : fsum (map Fin qs) = Fin (Qc_sum qs).
Proof. unfold fsum, Qc_sum. apply fsum_from_finite. Qed.

Lemma rsi_14_of_numbers (qs : list Qc) :
  IndicatorF.rsi_14 (map Fin qs) = Indicator.rsi_14 qs.
Proof.
  unfold IndicatorF.rsi_14, Indicator.rsi_14. cbv zeta.
  rewrite price_changes_of_numbers. unfold Indicator.trailing.
  rewrite length_map, drop_map.
  set (ds := drop (length (Indicator.price_changes qs) - 14) (Indicator.price_changes qs)).
  assert (map IndicatorF.gain_of (map Fin ds) = map Fin (map Indicator.gain_of ds)) as ->.
  { rewrite !map_map. apply map_ext. intros d. apply gain_of_number. }
  assert (map IndicatorF.loss_of (map Fin ds) = map Fin (map Indicator.loss_of ds)) as ->.
  { rewrite !map_map. apply map_ext. intros d. apply loss_of_number. }
  rewrite !fsum_of_numbers.
  assert (∀ s : Qc, fdiv (Fin s) (f_of_nat 14) = Fin (s / Qc_of_nat 14)%Qc) as Hd.
  { intros s. apply fdiv_finite. by vm_compute. }
  rewrite !Hd. reflexivity.
Qed.

Lemma ema_from_of_numbers (a prev : Qc) (qs : list Qc) :
  IndicatorF.ema_from (Fin a) (Fin prev) (map Fin qs) =
    map Fin (Indicator.ema_from a prev qs).
Proof.
  revert prev. induction qs as [|q qs IH]; intros prev; [done|].
  cbn [map IndicatorF.ema_from Indicator.ema_from]. cbv zeta.
  change (fadd (fmul (Fin a) (Fin q)) (fmul (fsub (f_of_Z 1) (Fin a)) (Fin prev)))
    with (Fin (a * q + (Qc_of_Z 1 + - a) * prev)%Qc).
  change (Qc_of_Z 1) with 1%Qc. change (1 + - a)%Qc with (1 - a)%Qc.
  f_equal. apply IH.
Qed.

Lemma ema_of_numbers (n : nat) (qs : list Qc) :
  IndicatorF.ema n (map Fin qs) = map Fin (Indicator.ema n qs).
Proof.
  destruct qs as [|q qs]; [done|]. cbn [map IndicatorF.ema Indicator.ema].
  f_equal. apply ema_from_of_numbers.
Qed.

Lemma macd_line_of_numbers (qs : list Qc) :
  IndicatorF.macd_line (map Fin qs) = map Fin (Indicator.macd_line qs).
Proof.
  unfold IndicatorF.macd_line, Indicator.macd_line.
  by rewrite !ema_of_numbers, zip_with_fsub_numbers.
Qed.

Lemma signal_line_of_numbers (qs : list Qc) :
  IndicatorF.signal_line (map Fin qs) = map Fin (Indicator.signal_line qs).
Proof.
  unfold IndicatorF.signal_line, Indicator.signal_line.
  by rewrite macd_line_of_numbers, ema_of_numbers.
Qed.


(** C7 as stated covers every series with a row.  On three days of which
    the second close is missing (NaN), the averages of the code skip the
    missing close and let the weight of the first one decay over it: the
    [macd] returned is 2776/14259, about 0.1947, and the [signal]
    2776/71295.  The recurrence of the claim gives no number on these
    closes (NaN), and a [macd] of 56/351, about 0.1595, on the two closes
    that are there. *)
Lemma a_missing_close_is_skipped_and_its_weight_decays :
  ∃ r,
    MainPy.calculate_technical_indicators (λ q, q) short_gap_history = Ok r ∧
    map Close short_gap_history = short_gap_closes ∧
    MainPy.macd r = Fin (Qc_of_Z 2776 / Qc_of_Z 14259)%Qc ∧
    MainPy.signal r = Fin (Qc_of_Z 2776 / Qc_of_Z 71295)%Qc ∧
    last (IndicatorF.macd_line short_gap_closes) = Some NaN ∧
    last (IndicatorF.signal_line short_gap_closes) = Some NaN ∧
    last (Indicator.macd_line (observed short_gap_closes)) =
      Some (Qc_of_Z 56 / Qc_of_Z 351)%Qc ∧
    MainPy.macd r ≠ NaN ∧
    MainPy.macd r ≠ Fin (Qc_of_Z 56 / Qc_of_Z 351)%Qc.
Proof.
  eexists. split; [by apply calculate_technical_indicators_rows|].
  cbn [MainPy.macd MainPy.signal].
  assert (at_last (macd_series (map Close short_gap_history)) =
          Fin (Qc_of_Z 2776 / Qc_of_Z 14259)%Qc) as Hm
    by (apply feqb_eq; by vm_compute).
  assert (at_last (signal_series (map Close short_gap_history)) =
          Fin (Qc_of_Z 2776 / Qc_of_Z 71295)%Qc) as Hs
    by (apply feqb_eq; by vm_compute).
  rewrite Hm, Hs. repeat split; done.
Qed.

(** *** Exceptions in the loops, and the fallback of app.py *)

Lemma research_prompt_filled ticker d :
  ∃ prompt,
    format_prompt AppPy.research_prompt
      (<["ticker" := ticker]> (<["stock_data" := d]> ∅)) = Ok prompt ∧
    ∀ w tr,
      chain_run w AppPy.research_prompt
        (<["ticker" := ticker]> (<["stock_data" := d]> ∅)) tr = llm_invoke w prompt tr.
Proof.
  eexists. split; [vm_compute; reflexivity|].
  intros w tr. apply chain_run_formatted; [by vm_compute|].
  vm_compute. reflexivity.
Qed.

(** What a computation has appended stays in the trace of what follows
    it. *)
Lemma bind_trace_prefix {A B : Type} (m : M A) (k : A → M B) tr pre :
  (∃ suf, (m tr).2 = tr ++ pre ++ suf) →
  (∀ x, ∃ n, adds_at_most n (k x)) →
  ∃ rest, (bind m k tr).2 = tr ++ pre ++ rest.
Proof.
  intros [suf Hm] Hk. unfold bind.
  destruct (m tr) as [[x|e] tr1]; cbn [snd] in *; subst tr1.
  - destruct (Hk x) as [n Hn]. destruct (Hn (tr ++ pre ++ suf)) as (new & -> & _).
    exists (suf ++ new). by rewrite <- !app_assoc.
  - by exists suf.
Qed.

(** C4 (amended).  For a line whose ticker is neither empty nor a word to
    leave, by the tests of the loops: when [analyze_stock] (app.py) or
    the body of [professional_analysis] (main.py) raises an exception,
    the program prints one message that ends with the text of the
    exception and goes on with the next line, with no retry.  One
    fallback exists besides, in app.py: an exception raised while the
    stock info is fetched or formatted is not raised further;
    [get_basic_stock_info] returns the text Error fetching stock info:
    followed by the text of the exception, and [analyze_stock] goes on
    with that text as its stock data: it prints it and sends the research
    prompt filled with it to the endpoint. *)
Theorem a_raised_exception_is_printed_once_and_the_loop_goes_on
    (ff : FloatFormat) (rt : MainPy.Runtime) (w : World)
    (line : string) (rest : list string) (tr : list event) :
  MainPy.floats rt = ff →
  let ticker := str_upper ff (str_strip ff line) in
  py_in (str_lower ff ticker) ["quit"; "exit"] = false →
  String.eqb ticker "" = false →
  (∀ e tr1,
     AppPy.analyze_stock ff w ticker (tr ++ [EvPrompt app_prompt]) = (Raise e, tr1) →
     AppPy.main_loop ff w (line :: rest) tr =
       AppPy.main_loop ff w rest
         (tr1 ++ [EvPrint ("Error analyzing stock: " +:+ exn_text e)])) ∧
  (∀ e tr1,
     MainPy.professional_analysis_body rt w ticker
       ((tr ++ [EvPrompt main_prompt]) ++
        [EvPrint (nl +:+ MainPy.icon_bank +:+
                  " Initiating Professional Analysis for " +:+ ticker +:+ "...")]) =
       (Raise e, tr1) →
     MainPy.main_loop rt w (line :: rest) tr =
       MainPy.main_loop rt w rest
         (tr1 ++ [EvPrint (nl +:+ MainPy.icon_cross +:+
                           " Professional analysis failed: " +:+ exn_text e)])) ∧
  (∀ e tr0,
     (yf_info w ticker = Raise e ∨
      ∃ info, yf_info w ticker = Ok info ∧ AppPy.basic_info ff info = Raise e) →
     let stock_data := "Error fetching stock info: " +:+ exn_text e in
     AppPy.get_basic_stock_info ff w ticker tr0 =
       (Ok stock_data, tr0 ++ [EvProvider ticker "info"]) ∧
     ∃ prompt more,
       format_prompt AppPy.research_prompt
         (<["ticker" := ticker]> (<["stock_data" := stock_data]> ∅)) = Ok prompt ∧
       (AppPy.analyze_stock ff w ticker tr0).2 =
         tr0 ++
         [ EvPrint (nl +:+ AppPy.icon_lens +:+ " Analyzing " +:+ ticker +:+ "..." +:+ nl);
           EvProvider ticker "info";
           EvPrint (AppPy.icon_chart +:+ " Basic Information:");
           EvPrint stock_data;
           EvLLMCall prompt ] ++ more).
Proof.
  intros Hff ticker Hquit Hempty. split; [|split].
  - intros e tr1 H. rewrite app_main_loop_cons. cbv zeta. fold ticker.
    by rewrite Hquit, Hempty, H.
  - intros e tr1 H. rewrite main_main_loop_cons. cbv zeta. rewrite Hff. fold ticker.
    rewrite py_in_swap, Hquit, Hempty.
    unfold MainPy.professional_analysis.
    rewrite bind_print. unfold try_except. rewrite H. reflexivity.
  - intros e tr0 Hcase stock_data.
    assert (∀ t, AppPy.get_basic_stock_info ff w ticker t =
                   (Ok stock_data, t ++ [EvProvider ticker "info"])) as Hg.
    { intros t. rewrite get_basic_stock_info_total.
      destruct Hcase as [He|(info & Hi & Hb)]; [by rewrite He|by rewrite Hi, Hb]. }
    split; [apply Hg|].
    destruct (research_prompt_filled ticker stock_data) as (prompt & Hp & Hrun).
    exists prompt.
    unfold AppPy.analyze_stock. rewrite bind_print.
    unfold bind at 1. rewrite Hg. rewrite !bind_print.
    match goal with
    | |- context [bind (chain_run ?w0 ?p0 ?i0) ?K ?T] =>
        destruct (bind_trace_prefix (chain_run w0 p0 i0) K T [EvLLMCall prompt])
          as [more Hmore]
    end.
    { rewrite Hrun. unfold llm_invoke.
      destruct (llm w _ prompt) as [r|e']; cbn [snd].
      - by exists [EvLLMReturn r].
      - by exists []. }
    { intros r. eexists. repeat adds_step. }
    exists more. split; [exact Hp|]. rewrite Hmore.
    by rewrite <- !app_assoc.
Qed.

(** The theorem on sessions in a world whose endpoint refuses every call. *)
Lemma a_raised_exception_is_printed_once_and_the_loop_goes_on_witness :
  AppPy.main_loop plain_floats endpoint_down ["aapl"; "quit"] [] =
    AppPy.main_loop plain_floats endpoint_down ["quit"]
      ((AppPy.analyze_stock plain_floats endpoint_down "AAPL" [EvPrompt app_prompt]).2 ++
       [EvPrint "Error analyzing stock: Connection error."]) ∧
  MainPy.main_loop plain_runtime endpoint_down ["aapl"; "quit"] [] =
    MainPy.main_loop plain_runtime endpoint_down ["quit"]
      ((MainPy.professional_analysis_body plain_runtime endpoint_down "AAPL"
          [EvPrompt main_prompt;
           EvPrint (nl +:+ MainPy.icon_bank +:+
                    " Initiating Professional Analysis for AAPL...")]).2 ++
       [EvPrint (nl +:+ MainPy.icon_cross +:+
                 " Professional analysis failed: Connection error.")]).
Proof.
  pose proof (a_raised_exception_is_printed_once_and_the_loop_goes_on
                plain_floats plain_runtime endpoint_down "aapl" ["quit"] []) as H.
  cbv zeta in H. destruct (H eq_refl eq_refl eq_refl) as (Happ & Hmain & _).
  split.
  - apply (Happ (PyExc "APIConnectionError" "Connection error.")).
    vm_compute. reflexivity.
  - apply (Hmain (PyExc "APIConnectionError" "Connection error.")).
    vm_compute. reflexivity.
Defined.

(** C4 as stated allows no fallback; in app.py, when the provider cannot
    be reached, the exception is swallowed and its text goes on as the
    stock data of three calls of the endpoint. *)
Lemma a_failed_fetch_is_passed_on_as_stock_data :
  ∃ p1 p2 p3 tr,
    yf_info provider_down "AAPL" = Raise (PyExc "ConnectionError" "connection refused") ∧
    AppPy.main plain_floats provider_down ["aapl"] [] = (Ok AppPy.AwaitingInput, tr) ∧
    llm_events tr =
      [ EvLLMCall p1; EvLLMReturn "FIRST-ANSWER";
        EvLLMCall p2; EvLLMReturn "SECOND-ANSWER";
        EvLLMCall p3; EvLLMReturn "THIRD-ANSWER" ] ∧
    contains "Error fetching stock info: connection refused" p1 = true ∧
    In (EvPrint "Error fetching stock info: connection refused") tr.
Proof.
  eexists _, _, _, _. split; [reflexivity|].
  split; [vm_compute; reflexivity|].
  split; [vm_compute; reflexivity|].
  split; [vm_compute; reflexivity|].
  do 6 right. left. reflexivity.
Qed.
